(** * arb-deploy: deployment orchestration of a dockerized validator cluster

    A shallow embedding of [scripts/arb_deploy.py].  The script shells out
    to the container runtime; here every shelled-out command is an explicit
    value, the process environment (files, images, containers) is an
    explicit state, and the script's functions are state transformers
    written in a small state-and-exit monad. *)

From Stdlib Require Import String Ascii List ZArith Lia Bool Sorting.Sorted.
From Stdlib Require Import DecimalString.
From Stdlib Require DecimalPos DecimalZ.
Import ListNotations.

Local Open Scope string_scope.
Local Open Scope Z_scope.

(** ** Python values and the [%] operator on strings *)

Module Py.

(** The values that the script passes to [%]. *)
Inductive value : Type :=
| Str (s : string)
| Int (z : Z).

(** [str(z)] / ["%d" % z] for a Python int. *)
Definition str_of_int (z : Z) : string :=
  NilZero.string_of_int (Z.to_int z).

(** The conversion [%s]: [str(v)]. *)
Definition conv_s (v : value) : string :=
  match v with
  | Str s => s
  | Int z => str_of_int z
  end.

(** The conversion [%d]: defined on numbers only ([TypeError] on a
    string). *)
Definition conv_d (v : value) : option string :=
  match v with
  | Str _ => None
  | Int z => Some (str_of_int z)
  end.

(** [tmpl % args] for a tuple [args], restricted to the conversions
    [%s], [%d] and [%%].  [None] stands for the [TypeError] /
    [ValueError] that Python raises (too few or too many arguments, an
    argument of the wrong type, an unsupported conversion). *)
Fixpoint format (tmpl : string) (args : list value) : option string :=
  match tmpl with
  | EmptyString =>
      match args with
      | [] => Some EmptyString
      | _ :: _ => None
      end
  | String c rest =>
      if Ascii.eqb c "%" then
        match rest with
        | EmptyString => None
        | String k rest' =>
            if Ascii.eqb k "s" then
              match args with
              | [] => None
              | a :: args' =>
                  option_map (append (conv_s a)) (format rest' args')
              end
            else if Ascii.eqb k "d" then
              match args with
              | [] => None
              | a :: args' =>
                  match conv_d a, format rest' args' with
                  | Some d, Some r => Some (d ++ r)
                  | _, _ => None
                  end
              end
            else if Ascii.eqb k "%" then
              option_map (String "%") (format rest' args)
            else None
        end
      else option_map (String c) (format rest args)
  end.

(** [range(lo, hi)] on Python ints: empty when [hi <= lo]. *)
Definition range (lo hi : Z) : list Z :=
  map (fun k => lo + Z.of_nat k) (seq 0 (Z.to_nat (hi - lo))).

(** ["".join(l)]. *)
Definition join_empty (l : list string) : string :=
  fold_right append EmptyString l.

End Py.

Notation "t %% a" := (Py.format t a) (at level 40, no associativity).

(** ** The docker-compose template *)

Definition DOCKER_COMPOSE_FILENAME : string := "docker-compose.yml".

Definition COMPOSE_HEADER : string :=
"# Machine generated by `arb-deploy`. Do not version control.
version: '3'
services:
    dockerhost:
        image: qoomon/docker-host
        cap_add: [ 'NET_ADMIN', 'NET_RAW' ]
        restart: on-failure

    arb-validator-coordinator:
        depends_on:
            - dockerhost
        volumes:
            - %s:/home/user/state
            - %s:/home/user/contract.ao
        image: arb-validator
        build:
            context: %s
            dockerfile: %s
        environment:
            - ID=0
            - WAIT_FOR=dockerhost:7546
            - ETH_URL=ws://dockerhost:7546
            - AVM=%s
        ports:
            - '1235:1235'
            - '1236:1236'
".

Definition compose_header
    (state_abspath contract_abspath cvalidator dockerfile avm : string)
    : option string :=
  COMPOSE_HEADER %% [ Py.Str state_abspath;
                      Py.Str contract_abspath;
                      Py.Str cvalidator;
                      Py.Str dockerfile;
                      Py.Str avm ].

Definition COMPOSE_VALIDATOR : string :=
"
    arb-validator%d:
        depends_on:
            - dockerhost
        volumes:
            - %s:/home/user/state
            - %s:/home/user/contract.ao
        image: arb-validator
        environment:
            - ID=%d
            - WAIT_FOR=arb-validator-coordinator:1236
            - ETH_URL=ws://dockerhost:7546
            - COORDINATOR_URL=wss://arb-validator-coordinator:1236/ws
            - AVM=%s
".

(** Returns one arb-validator declaration for a docker compose file. *)
Definition compose_validator
    (validator_id : Z) (state_abspath contract_abspath avm : string)
    : option string :=
  COMPOSE_VALIDATOR %% [ Py.Int validator_id;
                         Py.Str state_abspath;
                         Py.Str contract_abspath;
                         Py.Int validator_id;
                         Py.Str avm ].

Definition DOCKERFILE_CACHE : string :=
"FROM alpine:3.9
RUN mkdir /build /cpp-build /rocksdb
FROM scratch
COPY --from=0 /cpp-build /cpp-build
COPY --from=0 /rocksdb /rocksdb
COPY --from=0 /build /build".

(** ** Shell commands issued by the script *)

(** Every command line that the script passes to [run], one constructor
    per call site; [command_line] gives the text. *)
Inductive Command : Type :=
| docker_images_q (name : string)
| mkdir_tmp
| echo_dockerfile (text : string)
| docker_build (name : string)
| rm_tmp
| compose_down
| docker_ps_grep
| docker_kill (sudo_flag : bool)
| docker_rm (sudo_flag : bool)
| compose_build (compose : string)
| compose_up (compose : string).

Definition dquote : string := String "034"%char EmptyString.

(** [ps] in [halt_docker]. *)
Definition ps : string := "grep -e 'arb-validator' | awk '{ print $1 }'".

Definition command_line (c : Command) : string :=
  match c with
  | docker_images_q name => "docker images -q " ++ name
  | mkdir_tmp => "mkdir -p .tmp"
  | echo_dockerfile text =>
      "echo " ++ dquote ++ text ++ dquote ++ " > .tmp/Dockerfile"
  | docker_build name => "docker build -t " ++ name ++ " .tmp"
  | rm_tmp => "rm -rf .tmp"
  | compose_down =>
      "docker-compose -f ./" ++ DOCKER_COMPOSE_FILENAME ++ " down -t 0"
  | docker_ps_grep => "docker ps | " ++ ps
  | docker_kill sudo_flag =>
      "docker kill $(" ++ (if sudo_flag then "sudo " else "")
        ++ "docker ps | " ++ ps ++ ")"
  | docker_rm sudo_flag =>
      "docker rm $(" ++ (if sudo_flag then "sudo " else "")
        ++ "docker ps -a | " ++ ps ++ ")"
  | compose_build compose => "docker-compose -f " ++ compose ++ " build"
  | compose_up compose => "docker-compose -f " ++ compose ++ " up"
  end.

(** ** The process environment *)

Record Image : Type := mkImage {
  repository : string;
  image_id : string
}.

Record Container : Type := mkContainer {
  container_id : string;
  container_image : string;
  container_name : string;
  running : bool;
  (** created by the compose project of the working directory *)
  in_project : bool
}.

(** What [run] returns: the captured text or the exit status. *)
Inductive Result : Type :=
| Text (s : string)
| Status (z : Z).

(** What the script does that is visible from outside, in the order it
    happens.  Every step is a blocking call: its event stands for the
    whole step, from its start to its completion. *)
Inductive Event : Type :=
| Ran (cmd : Command) (capture_stdout quiet sudo : bool) (result : Result)
| IsFile (path : string)
| Wrote (path : string) (contents : string)
| IsDir (path : string)
| Rmtree (path : string)
| SetupStates (contract : string) (n_validators : Z) (sudo : bool)
              (status : Z).

Record World : Type := mkWorld {
  (** [./docker-compose.yml], when it exists *)
  compose_file : option string;
  (** [.tmp], when it exists, and [.tmp/Dockerfile], when it exists *)
  tmp_dir : option (option string);
  (** the state root, when it exists, and the node indices that have a
      state directory below it *)
  validator_states : option (list Z);
  images : list Image;
  (** all containers, running or stopped *)
  containers : list Container;
  (** exit statuses that the next fallible external steps (an image
      build, a compose build or up, the state bootstrap) will end with;
      a step that finds the list empty succeeds *)
  statuses : list Z;
  trace : list Event
}.

Definition set_compose_file (f : option string) (w : World) : World :=
  mkWorld f (tmp_dir w) (validator_states w) (images w) (containers w)
          (statuses w) (trace w).

Definition set_tmp_dir (d : option (option string)) (w : World) : World :=
  mkWorld (compose_file w) d (validator_states w) (images w) (containers w)
          (statuses w) (trace w).

Definition set_validator_states (s : option (list Z)) (w : World) : World :=
  mkWorld (compose_file w) (tmp_dir w) s (images w) (containers w)
          (statuses w) (trace w).

Definition set_images (i : list Image) (w : World) : World :=
  mkWorld (compose_file w) (tmp_dir w) (validator_states w) i (containers w)
          (statuses w) (trace w).

Definition set_containers (c : list Container) (w : World) : World :=
  mkWorld (compose_file w) (tmp_dir w) (validator_states w) (images w) c
          (statuses w) (trace w).

Definition set_statuses (s : list Z) (w : World) : World :=
  mkWorld (compose_file w) (tmp_dir w) (validator_states w) (images w)
          (containers w) s (trace w).

Definition log (e : Event) (w : World) : World :=
  mkWorld (compose_file w) (tmp_dir w) (validator_states w) (images w)
          (containers w) (statuses w) (trace w ++ [e]).

(** ** The monad of the script: state, [exit] and uncaught exceptions *)

Inductive Outcome (A : Type) : Type :=
| Return (a : A)
| Exit (code : Z)
| Raise (exn : string).

Arguments Return {A} a.
Arguments Exit {A} code.
Arguments Raise {A} exn.

Definition M (A : Type) : Type := World -> Outcome A * World.

Definition ret {A} (a : A) : M A := fun w => (Return a, w).

Definition bind {A B} (m : M A) (k : A -> M B) : M B :=
  fun w =>
    match m w with
    | (Return a, w') => k a w'
    | (Exit code, w') => (Exit code, w')
    | (Raise exn, w') => (Raise exn, w')
    end.

Definition exit {A} (code : Z) : M A := fun w => (Exit code, w).
Definition raise {A} (exn : string) : M A := fun w => (Raise exn, w).

Notation "x <- m ;; k" := (bind m (fun x => k))
  (at level 61, m at next level, right associativity).
Notation "m ;;; k" := (bind m (fun _ => k))
  (at level 61, right associativity).

Definition when (b : bool) (m : M unit) : M unit :=
  if b then m else ret tt.

(** ** The command runner and the container runtime *)

Definition nl : string := String "010"%char EmptyString.

(** [sub in s]. *)
Fixpoint contains (sub s : string) : bool :=
  if String.prefix sub s then true
  else match s with
       | EmptyString => false
       | String _ s' => contains sub s'
       end.

(** The line that [docker ps] prints for a container: its id first, its
    name last. *)
Definition ps_line (c : Container) : string :=
  container_id c ++ "   " ++ container_image c ++ "   " ++ container_name c.

(** The naming convention of the tool: what
    [grep -e 'arb-validator'] keeps. *)
Definition matches_convention (c : Container) : bool :=
  contains "arb-validator" (ps_line c).

(** What [awk '{ print $1 }'] prints for the lines of [cs]. *)
Definition id_lines (ids : list string) : string :=
  Py.join_empty (map (fun i => i ++ nl) ids).

Definition running_matching (w : World) : list Container :=
  filter (fun c => running c && matches_convention c) (containers w).

Definition all_matching (w : World) : list Container :=
  filter matches_convention (containers w).

Definition kill (c : Container) : Container :=
  mkContainer (container_id c) (container_image c) (container_name c)
              false (in_project c).

Definition next_status (w : World) : Z * World :=
  match statuses w with
  | [] => (0, w)
  | s :: rest => (s, set_statuses rest w)
  end.

(** The id that a build gives to the image it tags [name]. *)
Definition built_id (name : string) : string := "sha256:" ++ name.

Definition tag_image (name : string) (w : World) : World :=
  set_images
    (mkImage name (built_id name)
       :: filter (fun i => negb (String.eqb (repository i) name)) (images w))
    w.

(** Modelled from the spec: the container runtime and the shell behind
    the command runner (external collaborators, not part of the script).
    [exec c w] is the captured standard output, the exit status and the
    environment after running [c] in [w].  The containers that
    [docker-compose up] starts and leaves behind are not tracked. *)
Definition exec (c : Command) (w : World) : (string * Z) * World :=
  match c with
  | docker_images_q name =>
      let found :=
        filter (fun i => String.eqb (repository i) name) (images w) in
      ((id_lines (map image_id found), 0), w)
  | mkdir_tmp =>
      match tmp_dir w with
      | None => (("", 0), set_tmp_dir (Some None) w)
      | Some _ => (("", 0), w)
      end
  | echo_dockerfile text =>
      match tmp_dir w with
      | None => (("", 1), w)
      | Some _ => (("", 0), set_tmp_dir (Some (Some (text ++ nl))) w)
      end
  | docker_build name =>
      let (s, w1) := next_status w in
      match tmp_dir w1 with
      | Some (Some _) =>
          if s =? 0 then (("", 0), tag_image name w1) else (("", s), w1)
      | _ => (("", 1), w1)
      end
  | rm_tmp => (("", 0), set_tmp_dir None w)
  | compose_down =>
      match compose_file w with
      | Some _ =>
          (("", 0),
           set_containers
             (filter (fun c => negb (in_project c)) (containers w)) w)
      | None => (("", 1), w)
      end
  | docker_ps_grep =>
      ((id_lines (map container_id (running_matching w)), 0), w)
  | docker_kill _ =>
      let ids := map container_id (running_matching w) in
      ((id_lines ids, match ids with [] => 1 | _ => 0 end),
       set_containers
         (map (fun c => if running c && matches_convention c
                        then kill c else c) (containers w)) w)
  | docker_rm _ =>
      let gone :=
        filter (fun c => negb (running c)) (all_matching w) in
      ((id_lines (map container_id gone),
        match all_matching w with
        | [] => 1
        | _ => if forallb (fun c => negb (running c)) (all_matching w)
               then 0 else 1
        end),
       set_containers
         (filter (fun c => negb (matches_convention c && negb (running c)))
                 (containers w)) w)
  | compose_build _ =>
      let (s, w1) := next_status w in
      match compose_file w1 with
      | Some _ =>
          if s =? 0 then (("", 0), tag_image "arb-validator" w1)
          else (("", s), w1)
      | None => (("", 1), w1)
      end
  | compose_up _ =>
      let (s, w1) := next_status w in
      match compose_file w1 with
      | Some _ => (("", s), w1)
      | None => (("", 1), w1)
      end
  end.

(** [r == s] for a string [s]. *)
Definition eq_str (r : Result) (s : string) : bool :=
  match r with
  | Text t => String.eqb t s
  | Status _ => false
  end.

(** [r != z] for an int [z]. *)
Definition ne_int (r : Result) (z : Z) : bool :=
  match r with
  | Text _ => true
  | Status s => negb (s =? z)
  end.

(** Modelled from the spec: [support.run.run], the command runner
    ([run(command, captureStdout, quiet, elevatedPrivilege)] returns the
    captured text or the exit code, and never raises). *)
Definition run (cmd : Command) (capture_stdout quiet sudo : bool)
    : M Result :=
  fun w =>
    let '((out, st), w') := exec cmd w in
    let r := if capture_stdout then Text out else Status st in
    (Return r, log (Ran cmd capture_stdout quiet sudo r) w').

(** ** Files *)

(** [os.path.isfile("./" + DOCKER_COMPOSE_FILENAME)]. *)
Definition isfile_compose : M bool :=
  fun w =>
    let w' := log (IsFile ("./" ++ DOCKER_COMPOSE_FILENAME)) w in
    (Return (match compose_file w' with Some _ => true | None => false end),
     w').

(** [with open(compose, "w") as f: f.write(contents)]. *)
Definition write_compose (compose contents : string) : M unit :=
  fun w =>
    (Return tt, set_compose_file (Some contents) (log (Wrote compose contents) w)).

(** [os.path.join(a, b)] on a POSIX system. *)
Definition ends_with_slash (a : string) : bool :=
  match String.get (String.length a - 1) a with
  | Some c => Ascii.eqb c "/"
  | None => false
  end.

Definition os_path_join (a b : string) : string :=
  if String.prefix "/" b then b
  else if (String.eqb a "" || ends_with_slash a)%bool then a ++ b
  else a ++ "/" ++ b.


(** ** The topology document as the specification describes it *)

Record CoordinatorBlock : Type := mkCoordinator {
  coordinator_state : string;
  coordinator_contract : string;
  coordinator_context : string;
  coordinator_dockerfile : string;
  coordinator_backend : string
}.

Record PeerBlock : Type := mkPeer {
  peer_identity : Z;
  peer_state : string;
  peer_contract : string;
  peer_backend : string
}.

Record TopologyDocument : Type := mkTopology {
  coordinator : CoordinatorBlock;
  peers : list PeerBlock
}.

(** The text of a peer block: the service is named after the identity and
    declares it as [ID]. *)
Definition render_peer (b : PeerBlock) : string :=
  nl ++ "    arb-validator" ++ Py.str_of_int (peer_identity b) ++ ":" ++ nl
  ++ "        depends_on:" ++ nl
  ++ "            - dockerhost" ++ nl
  ++ "        volumes:" ++ nl
  ++ "            - " ++ peer_state b ++ ":/home/user/state" ++ nl
  ++ "            - " ++ peer_contract b ++ ":/home/user/contract.ao" ++ nl
  ++ "        image: arb-validator" ++ nl
  ++ "        environment:" ++ nl
  ++ "            - ID=" ++ Py.str_of_int (peer_identity b) ++ nl
  ++ "            - WAIT_FOR=arb-validator-coordinator:1236" ++ nl
  ++ "            - ETH_URL=ws://dockerhost:7546" ++ nl
  ++ "            - COORDINATOR_URL=wss://arb-validator-coordinator:1236/ws"
  ++ nl
  ++ "            - AVM=" ++ peer_backend b ++ nl.

(** The text of the coordinator block, with the preamble of the file and
    the proxy host it depends on. *)
Definition render_coordinator (b : CoordinatorBlock) : string :=
  "# Machine generated by `arb-deploy`. Do not version control." ++ nl
  ++ "version: '3'" ++ nl
  ++ "services:" ++ nl
  ++ "    dockerhost:" ++ nl
  ++ "        image: qoomon/docker-host" ++ nl
  ++ "        cap_add: [ 'NET_ADMIN', 'NET_RAW' ]" ++ nl
  ++ "        restart: on-failure" ++ nl
  ++ nl
  ++ "    arb-validator-coordinator:" ++ nl
  ++ "        depends_on:" ++ nl
  ++ "            - dockerhost" ++ nl
  ++ "        volumes:" ++ nl
  ++ "            - " ++ coordinator_state b ++ ":/home/user/state" ++ nl
  ++ "            - " ++ coordinator_contract b ++ ":/home/user/contract.ao"
  ++ nl
  ++ "        image: arb-validator" ++ nl
  ++ "        build:" ++ nl
  ++ "            context: " ++ coordinator_context b ++ nl
  ++ "            dockerfile: " ++ coordinator_dockerfile b ++ nl
  ++ "        environment:" ++ nl
  ++ "            - ID=0" ++ nl
  ++ "            - WAIT_FOR=dockerhost:7546" ++ nl
  ++ "            - ETH_URL=ws://dockerhost:7546" ++ nl
  ++ "            - AVM=" ++ coordinator_backend b ++ nl
  ++ "        ports:" ++ nl
  ++ "            - '1235:1235'" ++ nl
  ++ "            - '1236:1236'" ++ nl.

(** One coordinator block, then the peer blocks in their order. *)
Definition render (d : TopologyDocument) : string :=
  render_coordinator (coordinator d)
  ++ Py.join_empty (map render_peer (peers d)).

(** ** The script *)

Section Script.

(** [os.path.abspath], which depends on the working directory of the
    process. *)
Variable abspath : string -> string.

(** [ROOT_DIR], the directory above the one that holds the script. *)
Variable ROOT_DIR : string.

(** [setup_states.VALIDATOR_STATES], the state root. *)
Variable VALIDATOR_STATES : string.

(** [states_path i] is [states_path % i], where the pattern
    [states_path] is the absolute path of
    [setup_states.VALIDATOR_STATES] joined with
    [setup_states.VALIDATOR_STATE]. *)
Variable states_path : Z -> string.

(** [os.path.isdir(setup_states.VALIDATOR_STATES)]. *)
Definition isdir_states : M bool :=
  fun w =>
    let w' := log (IsDir VALIDATOR_STATES) w in
    (Return (match validator_states w' with
             | Some _ => true
             | None => false
             end), w').

(** [shutil.rmtree(setup_states.VALIDATOR_STATES)]. *)
Definition rmtree_states : M unit :=
  fun w =>
    (Return tt, set_validator_states None (log (Rmtree VALIDATOR_STATES) w)).

(** Modelled from the spec: [setup_states.setup_validator_states_ethbridge],
    the state bootstrap ([setupStates(contractPath, nodeCount,
    elevatedPrivilege)] populates the state directories of the nodes
    [0..nodeCount-1] under the state root; its failure propagates). *)
Definition setup_validator_states_ethbridge
    (contract : string) (n_validators : Z) (sudo_flag : bool) : M unit :=
  fun w =>
    let (s, w0) := next_status w in
    let w1 := log (SetupStates contract n_validators sudo_flag s) w0 in
    if s =? 0 then
      (Return tt,
       set_validator_states
         (Some (match validator_states w1 with
                | Some old => (old ++ Py.range 0 n_validators)%list
                | None => Py.range 0 n_validators
                end)) w1)
    else (Raise "setup_validator_states_ethbridge", w1).

(** Bootstrap the build cache if it does not exist. *)
Definition bootstrap_build_cache (sudo_flag : bool) (name : string)
    : M unit :=
  r <- run (docker_images_q name) true true sudo_flag ;;
  when (eq_str r "")
    (run mkdir_tmp false false false ;;;
     run (echo_dockerfile DOCKERFILE_CACHE) false false false ;;;
     run (docker_build name) false false sudo_flag ;;;
     run rm_tmp false false false ;;;
     ret tt).

Definition halt_docker (sudo_flag : bool) : M unit :=
  (* Check for DOCKER_COMPOSE_FILENAME and halt if running *)
  present <- isfile_compose ;;
  when present
    (run compose_down true false sudo_flag ;;; ret tt) ;;;
  (* Kill and rm all docker containers and images created by any
     `arb-deploy` *)
  r <- run docker_ps_grep true true sudo_flag ;;
  when (negb (eq_str r ""))
    (run (docker_kill sudo_flag) true false sudo_flag ;;;
     run (docker_rm sudo_flag) true false sudo_flag ;;;
     ret tt).

(** [[f(i) for i in l]] for an [f] that can raise. *)
Fixpoint comprehension {A B} (f : A -> option B) (l : list A)
    : option (list B) :=
  match l with
  | [] => Some []
  | a :: l' =>
      match f a, comprehension f l' with
      | Some b, Some bs => Some (b :: bs)
      | _, _ => None
      end
  end.

(** The [contents] of the compose file in [deploy]. *)
Definition compose_contents
    (contract_name : string) (n_validators : Z) (avm : string)
    : option string :=
  let contract := abspath contract_name in
  match compose_header (states_path 0) contract
          (abspath (os_path_join ROOT_DIR "packages"))
          "arb-validator.Dockerfile" avm,
        comprehension
          (fun i => compose_validator i (states_path i) contract avm)
          (Py.range 1 n_validators)
  with
  | Some header, Some validators =>
      Some (header ++ Py.join_empty validators)
  | _, _ => None
  end.

Definition of_option {A} (exn : string) (o : option A) : M A :=
  match o with
  | Some a => ret a
  | None => raise exn
  end.

(** Compile contracts to [contract.ao] and export to Docker and run
    validators. *)
Definition deploy
    (contract_name : string) (n_validators : Z)
    (sudo_flag build_flag up_flag : bool) (avm : string) : M unit :=
  bootstrap_build_cache sudo_flag "arb-avm-cpp" ;;;
  bootstrap_build_cache sudo_flag "arb-validator" ;;;
  (* Stop running Arbitrum containers *)
  halt_docker sudo_flag ;;;
  (* Overwrite DOCKER_COMPOSE_FILENAME *)
  let compose := abspath ("./" ++ DOCKER_COMPOSE_FILENAME) in
  contents <-
    of_option "TypeError" (compose_contents contract_name n_validators avm) ;;
  write_compose compose contents ;;;
  (* Build *)
  when (negb up_flag || build_flag)
    (r <- run (compose_build compose) false false sudo_flag ;;
     when (ne_int r 0) (exit 1)) ;;;
  (* Nuke old validator states if it exists *)
  present <- isdir_states ;;
  when present rmtree_states ;;;
  (* Setup validator states *)
  setup_validator_states_ethbridge
    (abspath contract_name) n_validators sudo_flag ;;;
  (* Run *)
  when (negb build_flag || up_flag)
    (run (compose_up compose) false false sudo_flag ;;; ret tt).

(** [deploy] from the point where the compose file is overwritten. *)
Definition deploy_after_halt
    (contract_name : string) (n_validators : Z)
    (sudo_flag build_flag up_flag : bool) (avm : string) : M unit :=
  let compose := abspath ("./" ++ DOCKER_COMPOSE_FILENAME) in
  contents <-
    of_option "TypeError" (compose_contents contract_name n_validators avm) ;;
  write_compose compose contents ;;;
  when (negb up_flag || build_flag)
    (r <- run (compose_build compose) false false sudo_flag ;;
     when (ne_int r 0) (exit 1)) ;;;
  present <- isdir_states ;;
  when present rmtree_states ;;;
  setup_validator_states_ethbridge
    (abspath contract_name) n_validators sudo_flag ;;;
  when (negb build_flag || up_flag)
    (run (compose_up compose) false false sudo_flag ;;; ret tt).

(** [generate(request)]: the document that the specification asks
    for, one coordinator block and a peer block for every index of
    [1..nodeCount-1]. *)
Definition generate
    (contract_name : string) (n_validators : Z) (avm : string)
    : TopologyDocument :=
  mkTopology
    (mkCoordinator (states_path 0) (abspath contract_name)
       (abspath (os_path_join ROOT_DIR "packages"))
       "arb-validator.Dockerfile" avm)
    (map (fun i => mkPeer i (states_path i) (abspath contract_name) avm)
         (Py.range 1 n_validators)).

(** *** Command line interface *)

(** The arguments of the command line as [argparse] recognises them
    for the parser that [main] builds (an option written in its short,
    long or abbreviated form is the same argument). *)
Inductive Arg : Type :=
| positional (s : string)
| opt_sudo
| opt_build
| opt_up
| opt_avm (choice : string)
| opt_help
| unrecognized (s : string).

(** The namespace while the arguments are being consumed. *)
Record Namespace : Type := mkNamespace {
  ns_contract : option string;
  ns_n_validators : option Z;
  ns_sudo : bool;
  ns_build : bool;
  ns_up : bool;
  ns_avm : string;
  ns_extras : bool
}.

Definition defaults : Namespace :=
  mkNamespace None None false false false "cpp" false.

Inductive Parsed : Type :=
| Args (contract : string) (n_validators : Z)
       (sudo build up : bool) (avm : string)
| ParserExit (code : Z).

(** The builtin [int], used as [type=int]. *)
Variable int : string -> option Z.

Definition avm_choices : list string := ["cpp"; "go"; "test"].

(** [parser.parse_args()]: the arguments are consumed from left to
    right; [-h] exits with status 0 where it stands, a usage error
    exits with status 2 ([parser.error]).  The two options of the
    mutually exclusive group conflict as soon as the second of them is
    met; unrecognised and missing arguments are reported at the end. *)
Fixpoint parse_args (argv : list Arg) (ns : Namespace) : Parsed :=
  match argv with
  | [] =>
      match ns_contract ns, ns_n_validators ns with
      | Some contract, Some n =>
          if ns_extras ns then ParserExit 2
          else Args contract n (ns_sudo ns) (ns_build ns) (ns_up ns)
                    (ns_avm ns)
      | _, _ => ParserExit 2
      end
  | positional s :: rest =>
      match ns_contract ns, ns_n_validators ns with
      | None, _ =>
          parse_args rest
            (mkNamespace (Some s) (ns_n_validators ns) (ns_sudo ns)
               (ns_build ns) (ns_up ns) (ns_avm ns) (ns_extras ns))
      | Some _, None =>
          match int s with
          | Some n =>
              parse_args rest
                (mkNamespace (ns_contract ns) (Some n) (ns_sudo ns)
                   (ns_build ns) (ns_up ns) (ns_avm ns) (ns_extras ns))
          | None => ParserExit 2
          end
      | Some _, Some _ =>
          parse_args rest
            (mkNamespace (ns_contract ns) (ns_n_validators ns) (ns_sudo ns)
               (ns_build ns) (ns_up ns) (ns_avm ns) true)
      end
  | opt_sudo :: rest =>
      parse_args rest
        (mkNamespace (ns_contract ns) (ns_n_validators ns) true
           (ns_build ns) (ns_up ns) (ns_avm ns) (ns_extras ns))
  | opt_build :: rest =>
      if ns_up ns then ParserExit 2
      else parse_args rest
             (mkNamespace (ns_contract ns) (ns_n_validators ns) (ns_sudo ns)
                true (ns_up ns) (ns_avm ns) (ns_extras ns))
  | opt_up :: rest =>
      if ns_build ns then ParserExit 2
      else parse_args rest
             (mkNamespace (ns_contract ns) (ns_n_validators ns) (ns_sudo ns)
                (ns_build ns) true (ns_avm ns) (ns_extras ns))
  | opt_avm choice :: rest =>
      if existsb (String.eqb choice) avm_choices then
        parse_args rest
          (mkNamespace (ns_contract ns) (ns_n_validators ns) (ns_sudo ns)
             (ns_build ns) (ns_up ns) choice (ns_extras ns))
      else ParserExit 2
  | opt_help :: _ => ParserExit 0
  | unrecognized _ :: rest =>
      parse_args rest
        (mkNamespace (ns_contract ns) (ns_n_validators ns) (ns_sudo ns)
           (ns_build ns) (ns_up ns) (ns_avm ns) true)
  end.

Definition main (argv : list Arg) : M unit :=
  match parse_args argv defaults with
  | ParserExit code => exit code
  | Args contract n_validators sudo build up avm =>
      (* Deploy *)
      deploy contract n_validators sudo build up avm
  end.

End Script.

(** A concrete environment: working directory [/w], repository [/repo].
    [abspath0] is [os.path.abspath] on the names that need no
    normalisation (no [..], [//] or [/./] in them). *)
Definition abspath0 (p : string) : string :=
  if String.prefix "/" p then p
  else if String.prefix "./" p then "/w/" ++ substring 2 (String.length p - 2) p
  else "/w/" ++ p.

Definition states_path0 (i : Z) : string :=
  "/w/validator-states/validator" ++ Py.str_of_int i.

Definition deploy0 := deploy abspath0 "/repo" "validator-states" states_path0.

(** [int] on the plain decimal numerals, with an optional minus sign.
    (Python's [int] accepts more: a plus sign, surrounding white space,
    underscores between digits.) *)
Definition int0 (s : string) : option Z :=
  option_map Z.of_int (NilZero.int_of_string s).

Definition main0 :=
  main abspath0 "/repo" "validator-states" states_path0 int0.

Definition empty_world : World :=
  mkWorld None None None [] [] [] [].

(** ** Observations on a run *)

(** The events that [m] adds to the trace when it runs in [w]. *)
Definition events_of {A} (m : M A) (w : World) : list Event :=
  skipn (length (trace w)) (trace (snd (m w))).

(** The phases of the orchestration, in the order of [deploy]. *)
Inductive Phase : Type :=
| CachePhase
| HaltPhase
| GeneratePhase
| BuildPhase
| ResetPhase
| UpPhase.

Definition phase_of (e : Event) : Phase :=
  match e with
  | Ran (docker_images_q _) _ _ _ _
  | Ran mkdir_tmp _ _ _ _
  | Ran (echo_dockerfile _) _ _ _ _
  | Ran (docker_build _) _ _ _ _
  | Ran rm_tmp _ _ _ _ => CachePhase
  | IsFile _
  | Ran compose_down _ _ _ _
  | Ran docker_ps_grep _ _ _ _
  | Ran (docker_kill _) _ _ _ _
  | Ran (docker_rm _) _ _ _ _ => HaltPhase
  | Wrote _ _ => GeneratePhase
  | Ran (compose_build _) _ _ _ _ => BuildPhase
  | IsDir _
  | Rmtree _
  | SetupStates _ _ _ _ => ResetPhase
  | Ran (compose_up _) _ _ _ _ => UpPhase
  end.

Definition phase_rank (p : Phase) : Z :=
  match p with
  | CachePhase => 0
  | HaltPhase => 1
  | GeneratePhase => 2
  | BuildPhase => 3
  | ResetPhase => 4
  | UpPhase => 5
  end.

Definition phase_eqb (p q : Phase) : bool := phase_rank p =? phase_rank q.

(** [runs p evs]: some step of phase [p] is among [evs]. *)
Definition runs (p : Phase) (evs : list Event) : bool :=
  existsb (fun e => phase_eqb (phase_of e) p) evs.

(** The events are grouped by phase, in the order of the phases. *)
Definition in_phase_order (evs : list Event) : Prop :=
  StronglySorted (fun a b => phase_rank (phase_of a) <= phase_rank (phase_of b))
                 evs.

(** [e] is an image build of the cache bootstrap, and a successful one. *)
Definition is_build (e : Event) : bool :=
  match e with
  | Ran (docker_build _) _ _ _ _ => true
  | _ => false
  end.

Definition is_successful_build (e : Event) : bool :=
  match e with
  | Ran (docker_build _) _ _ _ (Status 0) => true
  | _ => false
  end.

Definition build_invocations (evs : list Event) : nat :=
  length (filter is_build evs).

Definition successful_builds (evs : list Event) : nat :=
  length (filter is_successful_build evs).

Definition image_exists (name : string) (w : World) : bool :=
  existsb (fun i => String.eqb (repository i) name) (images w).

(** [e] is the build phase of the runtime ending with a non-zero status. *)
Definition is_failed_compose_build (e : Event) : bool :=
  match e with
  | Ran (compose_build _) _ _ _ (Status z) => negb (z =? 0)
  | _ => false
  end.

(** The contents that the events write to files, in their order. *)
Definition written (evs : list Event) : list string :=
  flat_map (fun e => match e with
                     | Wrote _ contents => [contents]
                     | _ => []
                     end) evs.

(** [e] is the state bootstrap failing. *)
Definition is_failed_setup (e : Event) : bool :=
  match e with
  | SetupStates _ _ _ status => negb (status =? 0)
  | _ => false
  end.

(** [e] only reads the file system. *)
Definition is_file_test (e : Event) : bool :=
  match e with
  | IsFile _ | IsDir _ => true
  | _ => false
  end.

(** [e] is a command of the container runtime: its command line starts
    with [docker]. *)
Definition is_runtime_command (e : Event) : bool :=
  match e with
  | Ran cmd _ _ _ _ => String.prefix "docker" (command_line cmd)
  | _ => false
  end.

(** The request is turned down and nothing has happened: the run ends
    without returning and leaves the environment, trace included, as it
    was. *)
Definition rejected_untouched {A} (m : M A) (w : World) : Prop :=
  snd (m w) = w /\ forall a, fst (m w) <> Return a.

(** The exit status of the process that runs [m] as its main program. *)
Definition process_status {A} (o : Outcome A) : Z :=
  match o with
  | Return _ => 0
  | Exit code => code
  | Raise _ => 1
  end.

(** The lines of a text (what [str.splitlines] gives for a text whose
    only line separator is the newline). *)
Fixpoint lines_from (current : string) (s : string) : list string :=
  match s with
  | EmptyString =>
      match current with
      | EmptyString => []
      | _ => [current]
      end
  | String c rest =>
      if Ascii.eqb c "010" then current :: lines_from EmptyString rest
      else lines_from (current ++ String c EmptyString) rest
  end.

Definition splitlines (s : string) : list string := lines_from EmptyString s.

(** The lines of a compose file that declare a node identity. *)
Definition identity_lines (text : string) : list string :=
  filter (String.prefix "            - ID=") (splitlines text).

(** The lines of a compose file that open a validator service. *)
Definition service_lines (text : string) : list string :=
  filter (String.prefix "    arb-validator") (splitlines text).

(** ** Concrete environments *)

(** Both cache images are in place; nothing else exists. *)
Definition cached_world : World :=
  mkWorld None None None
    [ mkImage "arb-avm-cpp" "1f3c5a7e9b2d"; mkImage "arb-validator" "8a6c4e2f0b1d" ]
    [] [] [].

(** The containers of an earlier deployment are left over, stopped, and
    there is no compose file. *)
Definition stale_world : World :=
  mkWorld None None None
    [ mkImage "arb-avm-cpp" "1f3c5a7e9b2d"; mkImage "arb-validator" "8a6c4e2f0b1d" ]
    [ mkContainer "c0ffee000001" "arb-validator" "w_arb-validator-coordinator_1"
        false true;
      mkContainer "c0ffee000002" "arb-validator" "w_arb-validator1_1"
        false true ]
    [] [].

(** An earlier deployment is running, no cache image exists yet, and the
    first image build is going to fail. *)
Definition live_world : World :=
  mkWorld (Some "old") None (Some [0; 1])
    []
    [ mkContainer "c0ffee000001" "arb-validator" "w_arb-validator-coordinator_1"
        true true;
      mkContainer "c0ffee000002" "arb-validator" "w_arb-validator1_1"
        true true ]
    [1] [].

(** Both cache images are in place, and the build phase of the runtime
    is going to end with status 7. *)
Definition failing_build_world : World :=
  mkWorld None None None
    [ mkImage "arb-avm-cpp" "1f3c5a7e9b2d"; mkImage "arb-validator" "8a6c4e2f0b1d" ]
    [] [7] [].

(** [e] is an image build of the cache bootstrap that failed. *)
Definition is_failed_build (e : Event) : bool :=
  match e with
  | Ran (docker_build _) _ _ _ (Status z) => negb (z =? 0)
  | _ => false
  end.

(** A matching container of some other deployment is running and one is
    stopped; there is no compose file. *)
Definition foreign_world : World :=
  mkWorld None None None []
    [ mkContainer "c0ffee000003" "arb-validator" "x_arb-validator1_1"
        true false;
      mkContainer "c0ffee000004" "arb-validator" "x_arb-validator2_1"
        false false;
      mkContainer "c0ffee000005" "postgres" "db" true false ]
    [] [].

(** The next fallible external step of [w] will succeed. *)
Definition next_succeeds (w : World) : bool :=
  match statuses w with
  | [] => true
  | s :: _ => s =? 0
  end.

(** The positional arguments of a command line. *)
Definition is_positional (a : Arg) : bool :=
  match a with
  | positional _ => true
  | _ => false
  end.

Definition positionals (argv : list Arg) : list Arg :=
  filter is_positional argv.

(** The positional arguments that [ns] still waits for. *)
Definition awaited (ns : Namespace) : nat :=
  match ns_contract ns, ns_n_validators ns with
  | None, None => 2
  | None, Some _ => 1
  | Some _, None => 1
  | Some _, Some _ => 0
  end.

(** [s] holds no newline. *)
Fixpoint no_newline (s : string) : bool :=
  match s with
  | EmptyString => true
  | String c rest => negb (Ascii.eqb c "010") && no_newline rest
  end.

(** [p] is an absolute path on one line, as [os.path.abspath] gives for
    a file name without a newline. *)
Definition absolute_line (p : string) : bool :=
  String.prefix "/" p && no_newline p.

(** The lines of the text of a peer block. *)
Definition peer_lines (b : PeerBlock) : list string :=
  [ "";
    "    arb-validator" ++ Py.str_of_int (peer_identity b) ++ ":";
    "        depends_on:";
    "            - dockerhost";
    "        volumes:";
    "            - " ++ peer_state b ++ ":/home/user/state";
    "            - " ++ peer_contract b ++ ":/home/user/contract.ao";
    "        image: arb-validator";
    "        environment:";
    "            - ID=" ++ Py.str_of_int (peer_identity b);
    "            - WAIT_FOR=arb-validator-coordinator:1236";
    "            - ETH_URL=ws://dockerhost:7546";
    "            - COORDINATOR_URL=wss://arb-validator-coordinator:1236/ws";
    "            - AVM=" ++ peer_backend b ].

(** The lines of the text of the coordinator block. *)
Definition coordinator_lines (b : CoordinatorBlock) : list string :=
  [ "# Machine generated by `arb-deploy`. Do not version control.";
    "version: '3'";
    "services:";
    "    dockerhost:";
    "        image: qoomon/docker-host";
    "        cap_add: [ 'NET_ADMIN', 'NET_RAW' ]";
    "        restart: on-failure";
    "";
    "    arb-validator-coordinator:";
    "        depends_on:";
    "            - dockerhost";
    "        volumes:";
    "            - " ++ coordinator_state b ++ ":/home/user/state";
    "            - " ++ coordinator_contract b ++ ":/home/user/contract.ao";
    "        image: arb-validator";
    "        build:";
    "            context: " ++ coordinator_context b;
    "            dockerfile: " ++ coordinator_dockerfile b;
    "        environment:";
    "            - ID=0";
    "            - WAIT_FOR=dockerhost:7546";
    "            - ETH_URL=ws://dockerhost:7546";
    "            - AVM=" ++ coordinator_backend b;
    "        ports:";
    "            - '1235:1235'";
    "            - '1236:1236'" ].

(** The line that opens the service of the peer [i], and the line that
    declares its identity. *)
Definition peer_service_line (i : Z) : string :=
  "    arb-validator" ++ Py.str_of_int i ++ ":".

Definition identity_line (i : Z) : string :=
  "            - ID=" ++ Py.str_of_int i.

(** The shell commands that work on the build context [.tmp]. *)
Definition on_build_context (cmd : Command) : bool :=
  match cmd with
  | mkdir_tmp | echo_dockerfile _ | rm_tmp => true
  | _ => false
  end.

(** The privilege that [e] ran with is the one that [sudo_flag] asks
    for: the commands on the build context never run with [sudo]; every
    other command, the state bootstrap, and the listing inside the
    command substitution of [docker kill] and [docker rm] run with
    [sudo] exactly when the flag is set. *)
Definition privilege_as_asked (sudo_flag : bool) (e : Event) : bool :=
  match e with
  | Ran cmd _ _ sudo _ =>
      Bool.eqb sudo (if on_build_context cmd then false else sudo_flag)
      && match cmd with
         | docker_kill inner | docker_rm inner => Bool.eqb inner sudo_flag
         | _ => true
         end
  | SetupStates _ _ sudo _ => Bool.eqb sudo sudo_flag
  | _ => true
  end.

(** [e] is the teardown of the compose project. *)
Definition is_compose_down (e : Event) : bool :=
  match e with
  | Ran compose_down _ _ _ _ => true
  | _ => false
  end.







(** A contract name that holds newlines. *)
Definition newline_contract : string :=
  "c" ++ nl ++ "    arb-validator9:" ++ nl ++ "            - ID=9" ++ nl ++ "x".



(** [s] without the prefix [p], when it starts with it. *)
Fixpoint strip_prefix (p s : string) : option string :=
  match p with
  | EmptyString => Some s
  | String a p' =>
      match s with
      | EmptyString => None
      | String b s' => if Ascii.eqb a b then strip_prefix p' s' else None
      end
  end.

(** The number that a line [- ID=...] of a compose file declares, read
    as a decimal numeral. *)
Definition declared_identity (line : string) : option Z :=
  match strip_prefix "            - ID=" line with
  | Some digits => option_map Z.of_int (NilZero.int_of_string digits)
  | None => None
  end.

(** The lines of a compose file that mount a host path, and those that
    select the backend. *)
Definition mount_lines (text : string) : list string :=
  filter (String.prefix "            - /") (splitlines text).

Definition backend_lines (text : string) : list string :=
  filter (String.prefix "            - AVM=") (splitlines text).

(** What [run] returns for [cmd] in [w]. *)
Definition run_result (cmd : Command) (capture_stdout : bool) (w : World)
    : Result :=
  if capture_stdout then Text (fst (fst (exec cmd w)))
  else Status (snd (fst (exec cmd w))).

(** * Properties *)

Local Open Scope list_scope.

Example range_1_4 : Py.range 1 4 = [1; 2; 3].
Proof. reflexivity. Qed.

Example compose_validator_3 :
  compose_validator 3 "/w/validator-states/validator3" "/w/c.ao" "test" =
  Some "
    arb-validator3:
        depends_on:
            - dockerhost
        volumes:
            - /w/validator-states/validator3:/home/user/state
            - /w/c.ao:/home/user/contract.ao
        image: arb-validator
        environment:
            - ID=3
            - WAIT_FOR=arb-validator-coordinator:1236
            - ETH_URL=ws://dockerhost:7546
            - COORDINATOR_URL=wss://arb-validator-coordinator:1236/ws
            - AVM=test
".
Proof. reflexivity. Qed.

Example os_path_join_ex : os_path_join "/repo" "packages" = "/repo/packages".
Proof. reflexivity. Qed.

(** Scenario A: one node, the header only, and the state of node 0. *)
Example scenario_A :
  let run := deploy0 "c.ao" 1 false false false "test" in
  fst (run empty_world) = Return tt
  /\ option_map service_lines (compose_file (snd (run empty_world)))
     = Some ["    arb-validator-coordinator:"]
  /\ option_map identity_lines (compose_file (snd (run empty_world)))
     = Some ["            - ID=0"]
  /\ validator_states (snd (run empty_world)) = Some [0].
Proof. vm_compute. repeat split. Qed.

(** Scenario B: four nodes, build only. *)
Example scenario_B :
  let run := deploy0 "c.ao" 4 false true false "cpp" in
  fst (run empty_world) = Return tt
  /\ runs BuildPhase (events_of run empty_world) = true
  /\ runs UpPhase (events_of run empty_world) = false
  /\ option_map service_lines (compose_file (snd (run empty_world)))
     = Some [ "    arb-validator-coordinator:"; "    arb-validator1:";
              "    arb-validator2:"; "    arb-validator3:" ]
  /\ option_map identity_lines (compose_file (snd (run empty_world)))
     = Some [ "            - ID=0"; "            - ID=1";
              "            - ID=2"; "            - ID=3" ]
  /\ validator_states (snd (run empty_world)) = Some [0; 1; 2; 3].
Proof. vm_compute. repeat split. Qed.

(** Called directly with both flags set, [deploy] builds and goes up:
    the exclusion of the two flags is the work of the argument parser. *)
Example deploy_both_flags :
  let run := deploy0 "c.ao" 2 false true true "cpp" in
  fst (run cached_world) = Return tt
  /\ runs BuildPhase (events_of run cached_world) = true
  /\ runs UpPhase (events_of run cached_world) = true.
Proof. vm_compute. repeat split. Qed.

(** ** The templates *)

Lemma compose_validator_render (i : Z) (state contract avm : string) :
  compose_validator i state contract avm
  = Some (render_peer (mkPeer i state contract avm)).
Proof. reflexivity. Qed.

Lemma compose_header_render (state contract context dockerfile avm : string) :
  compose_header state contract context dockerfile avm
  = Some (render_coordinator
            (mkCoordinator state contract context dockerfile avm)).
Proof. reflexivity. Qed.

Lemma comprehension_total {A B} (f : A -> option B) (g : A -> B) (l : list A) :
  (forall a, f a = Some (g a)) -> comprehension f l = Some (map g l).
Proof.
  intros Hf. induction l as [|a l IH]; simpl.
  - reflexivity.
  - now rewrite Hf, IH.
Qed.

Lemma append_empty_r (s : string) : (s ++ "")%string = s.
Proof. induction s as [|c s IH]; simpl; [reflexivity|now rewrite IH]. Qed.

(** ** [range] *)

Lemma range_length (lo hi : Z) : length (Py.range lo hi) = Z.to_nat (hi - lo).
Proof. unfold Py.range. now rewrite length_map, length_seq. Qed.

Lemma range_In (lo hi i : Z) : In i (Py.range lo hi) <-> lo <= i < hi.
Proof.
  unfold Py.range. rewrite in_map_iff. split.
  - intros (k & <- & Hk). apply in_seq in Hk. lia.
  - intros H. exists (Z.to_nat (i - lo)). split; [lia|].
    apply in_seq. lia.
Qed.


Lemma seq_map_sorted (lo : Z) (len start : nat) :
  StronglySorted Z.lt (map (fun k => lo + Z.of_nat k) (seq start len)).
Proof.
  revert start. induction len as [|len IH]; intros start; simpl.
  - constructor.
  - constructor; [apply IH|].
    apply Forall_forall. intros x Hx.
    apply in_map_iff in Hx. destruct Hx as (k & <- & Hk).
    apply in_seq in Hk. lia.
Qed.

Lemma range_sorted (lo hi : Z) : StronglySorted Z.lt (Py.range lo hi).
Proof. apply seq_map_sorted. Qed.

Lemma range_from_one (n : Z) :
  Py.range 1 n = map Z.of_nat (seq 1 (Z.to_nat (n - 1))).
Proof.
  unfold Py.range. generalize (Z.to_nat (n - 1)). intros len.
  rewrite <- seq_shift, map_map. apply map_ext. intros k. lia.
Qed.

(** ** The monad *)

Lemma bind_return {A B} (m : M A) (k : A -> M B) (w w' : World) (a : A) :
  m w = (Return a, w') -> bind m k w = k a w'.
Proof. intros H. unfold bind. now rewrite H. Qed.

Lemma bind_exit {A B} (m : M A) (k : A -> M B) (w w' : World) (code : Z) :
  m w = (Exit code, w') -> bind m k w = (Exit code, w').
Proof. intros H. unfold bind. now rewrite H. Qed.

Lemma bind_raise {A B} (m : M A) (k : A -> M B) (w w' : World) (exn : string) :
  m w = (Raise exn, w') -> bind m k w = (Raise exn, w').
Proof. intros H. unfold bind. now rewrite H. Qed.

Lemma events_of_eq {A} (m : M A) (w : World) (evs : list Event) :
  trace (snd (m w)) = trace w ++ evs -> events_of m w = evs.
Proof.
  intros H. unfold events_of. rewrite H.
  rewrite skipn_app, skipn_all, Nat.sub_diag. reflexivity.
Qed.

(** ** The runner: what a command changes *)

Lemma next_status_frame (w : World) :
  let w' := snd (next_status w) in
  trace w' = trace w /\ compose_file w' = compose_file w
  /\ tmp_dir w' = tmp_dir w /\ validator_states w' = validator_states w
  /\ images w' = images w /\ containers w' = containers w.
Proof. unfold next_status. destruct (statuses w); simpl; auto 10. Qed.

Lemma exec_trace (c : Command) (w : World) : trace (snd (exec c w)) = trace w.
Proof.
  destruct c; simpl;
    repeat match goal with
           | |- context [next_status ?w] =>
               let H := fresh in
               pose proof (next_status_frame w) as H;
               destruct (next_status w); simpl in H
           | |- context [match ?x with _ => _ end] => destruct x; simpl
           end; intuition congruence.
Qed.

Lemma exec_compose_file (c : Command) (w : World) :
  compose_file (snd (exec c w)) = compose_file w.
Proof.
  destruct c; simpl;
    repeat match goal with
           | |- context [next_status ?w] =>
               let H := fresh in
               pose proof (next_status_frame w) as H;
               destruct (next_status w); simpl in H
           | |- context [match ?x with _ => _ end] => destruct x eqn:?; simpl
           end; intuition congruence.
Qed.

Lemma exec_validator_states (c : Command) (w : World) :
  validator_states (snd (exec c w)) = validator_states w.
Proof.
  destruct c; simpl;
    repeat match goal with
           | |- context [next_status ?w] =>
               let H := fresh in
               pose proof (next_status_frame w) as H;
               destruct (next_status w); simpl in H
           | |- context [match ?x with _ => _ end] => destruct x eqn:?; simpl
           end; intuition congruence.
Qed.

Lemma run_eq (cmd : Command) (c q s : bool) (w : World) :
  run cmd c q s w
  = (Return (run_result cmd c w),
     log (Ran cmd c q s (run_result cmd c w)) (snd (exec cmd w))).
Proof.
  unfold run, run_result. destruct (exec cmd w) as [[out st] w']. reflexivity.
Qed.

(** ** The cache bootstrap *)

Lemma id_lines_empty (ids : list string) :
  String.eqb (id_lines ids) "" = match ids with [] => true | _ => false end.
Proof.
  destruct ids as [|i ids]; [reflexivity|].
  unfold id_lines. simpl. destruct i; reflexivity.
Qed.

Lemma images_query_empty (name : string) (w : World) :
  eq_str (run_result (docker_images_q name) true w) ""
  = negb (image_exists name w).
Proof.
  unfold run_result, image_exists. simpl. rewrite id_lines_empty.
  induction (images w) as [|i l IH]; simpl; [reflexivity|].
  destruct (String.eqb (repository i) name); simpl; [reflexivity|exact IH].
Qed.

Section BootstrapFacts.

Variable sudo_flag : bool.
Variable name : string.

Let query (w : World) : Event :=
  Ran (docker_images_q name) true true sudo_flag
      (run_result (docker_images_q name) true w).

(** With the image in place the bootstrap is the query alone. *)
Lemma bootstrap_cached (w : World) :
  image_exists name w = true ->
  bootstrap_build_cache sudo_flag name w = (Return tt, log (query w) w).
Proof.
  intros H. unfold bootstrap_build_cache.
  erewrite bind_return by apply run_eq.
  rewrite images_query_empty, H. reflexivity.
Qed.

(** Without it the bootstrap makes the context, builds and discards
    the context; the image exists afterwards exactly when the build
    succeeded. *)
Lemma bootstrap_uncached (w : World) :
  image_exists name w = false ->
  exists (st : Z) (w' : World),
    bootstrap_build_cache sudo_flag name w = (Return tt, w')
    /\ trace w' = trace w ++
         [ query w;
           Ran mkdir_tmp false false false (Status 0);
           Ran (echo_dockerfile DOCKERFILE_CACHE) false false false (Status 0);
           Ran (docker_build name) false false sudo_flag (Status st);
           Ran rm_tmp false false false (Status 0) ]
    /\ image_exists name w' = (st =? 0)
    /\ compose_file w' = compose_file w
    /\ validator_states w' = validator_states w
    /\ containers w' = containers w
    /\ tmp_dir w' = None.
Proof.
  intros H. unfold bootstrap_build_cache.
  erewrite bind_return by apply run_eq.
  rewrite images_query_empty, H. simpl negb. cbv iota beta. unfold when.
  unfold bind, run, exec, next_status, log. simpl.
  destruct (tmp_dir w), (statuses w) as [|s rest]; simpl.
  all: try destruct (s =? 0) eqn:Hs; simpl.
  all: eexists; eexists; split; [reflexivity|]; simpl.
  all: unfold image_exists in *; simpl.
  all: split; [repeat rewrite <- app_assoc; reflexivity|].
  all: rewrite ?String.eqb_refl; simpl; try rewrite Hs; auto 10.
Qed.

End BootstrapFacts.

Lemma bootstrap_spec (sudo_flag : bool) (name : string) (w : World) :
  exists (w' : World) (evs : list Event),
    bootstrap_build_cache sudo_flag name w = (Return tt, w')
    /\ trace w' = trace w ++ evs
    /\ Forall (fun e => phase_of e = CachePhase) evs
    /\ compose_file w' = compose_file w
    /\ validator_states w' = validator_states w
    /\ containers w' = containers w.
Proof.
  destruct (image_exists name w) eqn:H.
  - eexists. eexists. split; [apply bootstrap_cached, H|].
    simpl. repeat split. repeat constructor.
  - destruct (bootstrap_uncached sudo_flag name w H)
      as (st & w' & Hrun & Htr & _ & Hc & Hv & Hk & _).
    exists w'. eexists. split; [exact Hrun|]. split; [exact Htr|].
    repeat split; auto. repeat constructor.
Qed.

(** ** Halt *)

Lemma halt_spec (sudo_flag : bool) (w : World) :
  exists (w' : World) (evs : list Event),
    halt_docker sudo_flag w = (Return tt, w')
    /\ trace w' = trace w ++ evs
    /\ Forall (fun e => phase_of e = HaltPhase) evs
    /\ Forall (fun e => is_file_test e || is_runtime_command e = true) evs
    /\ evs <> []
    /\ compose_file w' = compose_file w
    /\ tmp_dir w' = tmp_dir w
    /\ validator_states w' = validator_states w
    /\ images w' = images w
    /\ statuses w' = statuses w.
Proof.
  unfold halt_docker, isfile_compose, when, bind, run, log. simpl.
  destruct (compose_file w) eqn:Hc; simpl; rewrite ?Hc; simpl;
    match goal with
    | |- context [String.eqb ?a ?b] => destruct (String.eqb a b); simpl
    end;
    (eexists; eexists; split; [reflexivity|]; simpl;
     split; [repeat rewrite <- app_assoc; reflexivity|];
     split; [repeat constructor|];
     split; [repeat constructor; destruct sudo_flag; reflexivity|];
     split; [discriminate|];
     auto 10).
Qed.

Lemma matches_convention_kill (c : Container) :
  matches_convention (kill c) = matches_convention c.
Proof. reflexivity. Qed.

Lemma kill_then_rm (cs : list Container) :
  filter matches_convention
    (filter (fun c => negb (matches_convention c && negb (running c)))
       (map (fun c => if running c && matches_convention c
                      then kill c else c) cs)) = [].
Proof.
  induction cs as [|c l IH]; simpl; [reflexivity|].
  destruct (running c) eqn:Hrun, (matches_convention c) eqn:Hmc; simpl;
    rewrite ?matches_convention_kill, ?Hrun, ?Hmc; simpl;
    rewrite ?Hmc; simpl; exact IH.
Qed.

(** When some matching container is running, halt kills and removes all
    the matching ones, stopped ones included. *)
Lemma halt_removes_when_running (sudo_flag : bool) (w : World) :
  compose_file w = None ->
  running_matching w <> [] ->
  all_matching (snd (halt_docker sudo_flag w)) = [].
Proof.
  intros Hc Hr.
  unfold halt_docker, isfile_compose, when, bind, run, log. simpl.
  rewrite Hc. simpl. rewrite id_lines_empty.
  destruct (map container_id _) eqn:Hm.
  - apply map_eq_nil in Hm. unfold running_matching in Hr. simpl in Hm.
    contradiction.
  - simpl. unfold all_matching. simpl. apply kill_then_rm.
Qed.

(** When no matching container is running and there is no compose file,
    halt leaves every container where it is. *)
Lemma halt_keeps_when_none_running (sudo_flag : bool) (w : World) :
  compose_file w = None ->
  running_matching w = [] ->
  containers (snd (halt_docker sudo_flag w)) = containers w.
Proof.
  intros Hc Hr.
  unfold halt_docker, isfile_compose, when, bind, run, log. simpl.
  rewrite Hc. simpl. rewrite id_lines_empty.
  unfold running_matching in *. simpl. rewrite Hr. reflexivity.
Qed.

(** ** Events and phases *)

Lemma runs_app (p : Phase) (l1 l2 : list Event) :
  runs p (l1 ++ l2) = runs p l1 || runs p l2.
Proof. apply existsb_app. Qed.

Lemma runs_other (p q : Phase) (l : list Event) :
  Forall (fun e => phase_of e = q) l -> phase_eqb q p = false ->
  runs p l = false.
Proof.
  intros Hl Hpq. induction Hl as [|e l He _ IH]; simpl; [reflexivity|].
  now rewrite He, Hpq, IH.
Qed.

Lemma existsb_other (f : Event -> bool) (q : Phase) (l : list Event) :
  Forall (fun e => phase_of e = q) l ->
  (forall e, phase_of e = q -> f e = false) ->
  existsb f l = false.
Proof.
  intros Hl Hf. induction Hl as [|e l He _ IH]; simpl; [reflexivity|].
  now rewrite (Hf e He), IH.
Qed.

Lemma runs_same (p : Phase) (l : list Event) :
  Forall (fun e => phase_of e = p) l -> l <> [] -> runs p l = true.
Proof.
  intros Hl Hne. destruct Hl as [|e l He _]; [contradiction|].
  simpl. rewrite He. unfold phase_eqb. now rewrite Z.eqb_refl.
Qed.

Lemma written_other (q : Phase) (l : list Event) :
  Forall (fun e => phase_of e = q) l -> phase_eqb q GeneratePhase = false ->
  written l = [].
Proof.
  intros Hl Hq. induction Hl as [|e l He _ IH]; [reflexivity|].
  destruct e; simpl; try exact IH.
  simpl in He. rewrite <- He in Hq. discriminate.
Qed.

Lemma in_phase_order_app (r : Z) (l1 l2 : list Event) :
  in_phase_order l1 -> in_phase_order l2 ->
  Forall (fun e => phase_rank (phase_of e) <= r) l1 ->
  Forall (fun e => r <= phase_rank (phase_of e)) l2 ->
  in_phase_order (l1 ++ l2).
Proof.
  unfold in_phase_order. intros H1 H2 Hlo Hhi.
  induction H1 as [|e l Hl IH He]; simpl; [exact H2|].
  inversion Hlo as [|? ? Hr Hlo']; subst.
  constructor; [apply IH, Hlo'|].
  apply Forall_app. split; [exact He|].
  eapply Forall_impl; [|exact Hhi]. simpl. intros; lia.
Qed.

Lemma same_phase_order (p : Phase) (l : list Event) :
  Forall (fun e => phase_of e = p) l -> in_phase_order l.
Proof.
  unfold in_phase_order. intros H.
  induction H as [|e l He Hl IH]; constructor; [exact IH|].
  eapply Forall_impl; [|exact Hl]. simpl. intros a Ha. rewrite He, Ha. lia.
Qed.

(** In a list in phase order, no step of an earlier phase follows a step
    of a later one. *)
Lemma in_phase_order_split (pre post : list Event) (e : Event) :
  in_phase_order (pre ++ e :: post) ->
  Forall (fun e' => phase_rank (phase_of e) <= phase_rank (phase_of e')) post.
Proof.
  unfold in_phase_order. induction pre as [|a pre IH]; simpl; intros H.
  - now inversion H.
  - inversion H; subst. now apply IH.
Qed.

(** ** Deploy *)

Section DeployFacts.

Variable abspath : string -> string.
Variable ROOT_DIR : string.
Variable VALIDATOR_STATES : string.
Variable states_path : Z -> string.

Variable contract_name : string.
Variable n_validators : Z.
Variable avm : string.

Let document : string :=
  render (generate abspath ROOT_DIR states_path contract_name n_validators avm).

Let compose : string := abspath ("./" ++ DOCKER_COMPOSE_FILENAME)%string.

(** The contents are always defined, and are the rendering of the
    document that the specification describes. *)
Lemma compose_contents_render :
  compose_contents abspath ROOT_DIR states_path contract_name n_validators avm
  = Some document.
Proof.
  unfold compose_contents, document, render, generate.
  rewrite compose_header_render.
  rewrite (comprehension_total _
             (fun i => render_peer
                         (mkPeer i (states_path i) (abspath contract_name) avm))).
  - cbv zeta. simpl peers. simpl coordinator. now rewrite map_map.
  - intros i. apply compose_validator_render.
Qed.

Lemma deploy_unfold (sudo_flag build_flag up_flag : bool) :
  deploy abspath ROOT_DIR VALIDATOR_STATES states_path
         contract_name n_validators sudo_flag build_flag up_flag avm
  = (bootstrap_build_cache sudo_flag "arb-avm-cpp" ;;;
     bootstrap_build_cache sudo_flag "arb-validator" ;;;
     halt_docker sudo_flag ;;;
     deploy_after_halt abspath ROOT_DIR VALIDATOR_STATES states_path
       contract_name n_validators sudo_flag build_flag up_flag avm).
Proof. reflexivity. Qed.

Lemma deploy_after_halt_spec (sudo_flag build_flag up_flag : bool) (w : World) :
  exists (o : Outcome unit) (w' : World) (evs : list Event),
    deploy_after_halt abspath ROOT_DIR VALIDATOR_STATES states_path
      contract_name n_validators sudo_flag build_flag up_flag avm w = (o, w')
    /\ trace w' = trace w ++ Wrote compose document :: evs
    /\ compose_file w' = Some document
    /\ in_phase_order evs
    /\ Forall (fun e => 3 <= phase_rank (phase_of e)) evs
    /\ written evs = []
    /\ runs BuildPhase evs = negb up_flag || build_flag
    /\ (existsb is_failed_compose_build evs = true ->
        o = Exit 1 /\ runs ResetPhase evs = false
        /\ runs UpPhase evs = false)
    /\ (o = Return tt ->
        runs ResetPhase evs = true
        /\ runs UpPhase evs = negb build_flag || up_flag)
    /\ (o = Return tt
        \/ (o = Exit 1 /\ existsb is_failed_compose_build evs = true)
        \/ (exists exn, o = Raise exn)
           /\ existsb is_failed_setup evs = true).
Proof.
  unfold deploy_after_halt. rewrite compose_contents_render.
  fold compose.
  unfold of_option, when, bind, ret, write_compose, run, exec, isdir_states,
    rmtree_states, setup_validator_states_ethbridge, exit, raise,
    next_status, log, set_compose_file, set_validator_states, set_statuses,
    tag_image, set_images.
  simpl.
  destruct up_flag, build_flag; simpl.
  all: destruct (statuses w) as [|s1 [|s2 [|s3 rest]]]; simpl.
  all: destruct (validator_states w); simpl.
  all: repeat match goal with
              | |- context [?z =? 0] =>
                  let H := fresh "Hz" in destruct (z =? 0) eqn:H; simpl
              end.
  all: eexists; eexists; eexists; split; [reflexivity|]; simpl.
  all: split; [repeat rewrite <- app_assoc; reflexivity|].
  all: split; [reflexivity|].
  all: split; [unfold in_phase_order; repeat constructor; simpl; lia|].
  all: split; [repeat constructor; simpl; lia|].
  all: split; [reflexivity|].
  all: simpl; rewrite ?Hz, ?Hz0, ?Hz1; simpl.
  all: repeat split; try reflexivity; try discriminate; intros; try discriminate.
  all: auto.
  all: try (right; left; split; reflexivity).
  all: try (right; right; split; [eexists; reflexivity|reflexivity]).
Qed.

Lemma failed_build_phase (e : Event) :
  is_failed_compose_build e = true -> phase_of e = BuildPhase.
Proof.
  destruct e as [cmd ? ? ? r| | | | |]; try discriminate.
  destruct cmd; simpl; try discriminate. reflexivity.
Qed.

Lemma failed_setup_phase (e : Event) :
  is_failed_setup e = true -> phase_of e = ResetPhase.
Proof. destruct e; try discriminate. reflexivity. Qed.

Lemma no_failed_build (p : Phase) (l : list Event) :
  Forall (fun e => phase_of e = p) l -> phase_eqb p BuildPhase = false ->
  existsb is_failed_compose_build l = false.
Proof.
  intros Hl Hp. apply (existsb_other _ p); [exact Hl|].
  intros e He. destruct (is_failed_compose_build e) eqn:Hf; [|reflexivity].
  apply failed_build_phase in Hf. rewrite He in Hf. rewrite Hf in Hp.
  cbv in Hp. discriminate Hp.
Qed.

Lemma no_failed_setup (p : Phase) (l : list Event) :
  Forall (fun e => phase_of e = p) l -> phase_eqb p ResetPhase = false ->
  existsb is_failed_setup l = false.
Proof.
  intros Hl Hp. apply (existsb_other _ p); [exact Hl|].
  intros e He. destruct (is_failed_setup e) eqn:Hf; [|reflexivity].
  apply failed_setup_phase in Hf. rewrite He in Hf. rewrite Hf in Hp.
  cbv in Hp. discriminate Hp.
Qed.

(** What a run of [deploy] does, whatever the environment. *)
Lemma deploy_spec (sudo_flag build_flag up_flag : bool) (w : World) :
  exists (o : Outcome unit) (w' : World) (evs : list Event),
    deploy abspath ROOT_DIR VALIDATOR_STATES states_path
      contract_name n_validators sudo_flag build_flag up_flag avm w = (o, w')
    /\ trace w' = trace w ++ evs
    /\ compose_file w' = Some document
    /\ In (Wrote compose document) evs
    /\ written evs = [document]
    /\ in_phase_order evs
    /\ runs HaltPhase evs = true
    /\ runs BuildPhase evs = negb up_flag || build_flag
    /\ (existsb is_failed_compose_build evs = true ->
        o = Exit 1 /\ runs ResetPhase evs = false
        /\ runs UpPhase evs = false)
    /\ (o = Return tt ->
        runs ResetPhase evs = true
        /\ runs UpPhase evs = negb build_flag || up_flag)
    /\ (o = Return tt
        \/ (o = Exit 1 /\ existsb is_failed_compose_build evs = true)
        \/ (exists exn, o = Raise exn)
           /\ existsb is_failed_setup evs = true).
Proof.
  rewrite deploy_unfold.
  destruct (bootstrap_spec sudo_flag "arb-avm-cpp" w)
    as (w1 & e1 & R1 & T1 & P1 & _).
  destruct (bootstrap_spec sudo_flag "arb-validator" w1)
    as (w2 & e2 & R2 & T2 & P2 & _).
  destruct (halt_spec sudo_flag w2) as (w3 & e3 & R3 & T3 & P3 & _ & N3 & _).
  destruct (deploy_after_halt_spec sudo_flag build_flag up_flag w3)
    as (o & w' & e4 & R4 & T4 & Hfile & Hord & Hlow & Hwr & Hbuild
        & Hfail & Hret & Hout).
  exists o, w', (e1 ++ e2 ++ e3 ++ Wrote compose document :: e4).
  split.
  { erewrite bind_return by exact R1.
    erewrite bind_return by exact R2.
    erewrite bind_return by exact R3. exact R4. }
  split.
  { rewrite T4, T3, T2, T1. now rewrite <- !app_assoc. }
  split; [exact Hfile|].
  split.
  { apply in_or_app; right. apply in_or_app; right. apply in_or_app; right.
    now left. }
  split.
  { unfold written. rewrite !flat_map_app. simpl.
    fold (written e1). fold (written e2). fold (written e3).
    fold (written e4).
    rewrite (written_other CachePhase e1 P1), (written_other CachePhase e2 P2),
            (written_other HaltPhase e3 P3), Hwr by reflexivity.
    reflexivity. }
  assert (Ho4 : in_phase_order (Wrote compose document :: e4)).
  { unfold in_phase_order. constructor; [exact Hord|].
    eapply Forall_impl; [|exact Hlow]. simpl. intros; lia. }
  assert (Hl4 : Forall (fun e => 1 <= phase_rank (phase_of e))
                       (Wrote compose document :: e4)).
  { constructor; [simpl; lia|].
    eapply Forall_impl; [|exact Hlow]. simpl. intros; lia. }
  split.
  { apply (in_phase_order_app 0);
      [eapply same_phase_order; exact P1| |
       eapply Forall_impl; [|exact P1]; simpl; intros a Ha; rewrite Ha;
       simpl; lia|].
    - apply (in_phase_order_app 0);
        [eapply same_phase_order; exact P2| |
         eapply Forall_impl; [|exact P2]; simpl; intros a Ha; rewrite Ha;
         simpl; lia|].
      + apply (in_phase_order_app 1);
          [eapply same_phase_order; exact P3|exact Ho4|
           eapply Forall_impl; [|exact P3]; simpl; intros a Ha; rewrite Ha;
           simpl; lia|exact Hl4].
      + apply Forall_app. split.
        * eapply Forall_impl; [|exact P3]. simpl. intros a Ha. rewrite Ha.
          simpl. lia.
        * eapply Forall_impl; [|exact Hl4]. simpl. intros; lia.
    - apply Forall_app. split.
      + eapply Forall_impl; [|exact P2]. simpl. intros a Ha. rewrite Ha.
        simpl. lia.
      + apply Forall_app. split.
        * eapply Forall_impl; [|exact P3]. simpl. intros a Ha. rewrite Ha.
          simpl. lia.
        * eapply Forall_impl; [|exact Hl4]. simpl. intros; lia. }
  split.
  { rewrite !runs_app. rewrite (runs_same HaltPhase e3 P3 N3).
    now rewrite !orb_true_r. }
  assert (Hruns : forall p, 3 <= phase_rank p ->
            runs p (e1 ++ e2 ++ e3 ++ Wrote compose document :: e4)
            = runs p e4).
  { intros p Hp. rewrite !runs_app.
    destruct p; simpl in Hp; try lia;
      rewrite (runs_other _ CachePhase e1 P1),
              (runs_other _ CachePhase e2 P2),
              (runs_other _ HaltPhase e3 P3) by reflexivity;
      reflexivity. }
  assert (Hfb : existsb is_failed_compose_build
                  (e1 ++ e2 ++ e3 ++ Wrote compose document :: e4)
                = existsb is_failed_compose_build e4).
  { rewrite !existsb_app.
    rewrite (no_failed_build CachePhase e1 P1),
            (no_failed_build CachePhase e2 P2),
            (no_failed_build HaltPhase e3 P3); reflexivity. }
  assert (Hfs : existsb is_failed_setup
                  (e1 ++ e2 ++ e3 ++ Wrote compose document :: e4)
                = existsb is_failed_setup e4).
  { rewrite !existsb_app.
    rewrite (no_failed_setup CachePhase e1 P1),
            (no_failed_setup CachePhase e2 P2),
            (no_failed_setup HaltPhase e3 P3); reflexivity. }
  rewrite Hfb, Hfs, !Hruns by (simpl; lia).
  auto 10.
Qed.

End DeployFacts.

(** ** The claims on deploy *)

Section DeployClaims.

Variable abspath : string -> string.
Variable ROOT_DIR : string.
Variable VALIDATOR_STATES : string.
Variable states_path : Z -> string.

Let deploy_here := deploy abspath ROOT_DIR VALIDATOR_STATES states_path.
Let generate_here := generate abspath ROOT_DIR states_path.

(** No failure of the cache bootstrap stops [deploy]: whatever the
    environment, halt runs and the compose file is written; the only
    exit is the one after a failed build phase. *)
Lemma deploy_reaches_generate
    (contract_name : string) (n : Z) (sudo_flag build_flag up_flag : bool)
    (avm : string) (w : World) :
  let run := deploy_here contract_name n sudo_flag build_flag up_flag avm in
  runs HaltPhase (events_of run w) = true
  /\ written (events_of run w) = [render (generate_here contract_name n avm)]
  /\ (forall code, fst (run w) = Exit code ->
      code = 1
      /\ existsb is_failed_compose_build (events_of run w) = true).
Proof.
  intros run.
  destruct (deploy_spec abspath ROOT_DIR VALIDATOR_STATES states_path
              contract_name n avm sudo_flag build_flag up_flag w)
    as (o & w' & evs & R & T & _ & _ & W & _ & Hh & _ & _ & _ & Hout).
  assert (E : events_of run w = evs).
  { apply events_of_eq. unfold run, deploy_here. now rewrite R. }
  rewrite E. split; [exact Hh|]. split; [exact W|].
  intros code. unfold run, deploy_here. rewrite R. simpl. intros ->.
  destruct Hout as [Ho | [[Ho Hf] | [[exn Ho] _]]]; try discriminate.
  injection Ho as ->. now split.
Qed.

Lemma failed_setup_runs_reset (evs : list Event) :
  existsb is_failed_setup evs = true -> runs ResetPhase evs = true.
Proof.
  induction evs as [|e l IH]; simpl; [discriminate|].
  destruct (is_failed_setup e) eqn:He; simpl.
  - intros _. apply failed_setup_phase in He. now rewrite He.
  - intros H. rewrite (IH H). apply orb_true_r.
Qed.

(** C5.  When the build phase of the runtime ends with a non-zero
    status, [deploy] exits with status 1, which is the exit status of the
    process; no step of the state reset and no step of the up phase has
    run, and the compose file that was just written is on disk. *)
Theorem C5_build_failure_aborts
    (contract_name : string) (n : Z) (sudo_flag build_flag up_flag : bool)
    (avm : string) (w : World) :
  let run := deploy_here contract_name n sudo_flag build_flag up_flag avm in
  existsb is_failed_compose_build (events_of run w) = true ->
  fst (run w) = Exit 1
  /\ process_status (fst (run w)) <> 0
  /\ runs ResetPhase (events_of run w) = false
  /\ runs UpPhase (events_of run w) = false
  /\ written (events_of run w) = [render (generate_here contract_name n avm)]
  /\ compose_file (snd (run w))
     = Some (render (generate_here contract_name n avm)).
Proof.
  intros run.
  destruct (deploy_spec abspath ROOT_DIR VALIDATOR_STATES states_path
              contract_name n avm sudo_flag build_flag up_flag w)
    as (o & w' & evs & R & T & F & _ & W & _ & _ & _ & Hfail & _).
  assert (E : events_of run w = evs).
  { apply events_of_eq. unfold run, deploy_here. now rewrite R. }
  rewrite E. intros Hf. destruct (Hfail Hf) as (Ho & Hr & Hu).
  unfold run, deploy_here. rewrite R. simpl. subst o.
  repeat split; auto. simpl. discriminate.
Qed.

End DeployClaims.

(** ** The command line *)

Section MainClaims.

Variable abspath : string -> string.
Variable ROOT_DIR : string.
Variable VALIDATOR_STATES : string.
Variable states_path : Z -> string.
Variable int : string -> option Z.

Lemma not_in_cons_help (a : Arg) (rest : list Arg) :
  ~ In opt_help (a :: rest) -> ~ In opt_help rest.
Proof. intros H Hin. apply H. now right. Qed.

(** Once both options of the group are among what has been seen and what
    is still to come, the parser exits. *)
Lemma parse_args_conflict (argv : list Arg) :
  forall ns : Namespace,
    ns_build ns && ns_up ns = false ->
    ns_build ns = true \/ In opt_build argv ->
    ns_up ns = true \/ In opt_up argv ->
    exists code : Z,
      parse_args int argv ns = ParserExit code
      /\ (~ In opt_help argv -> code = 2).
Proof.
  induction argv as [|a rest IH]; intros ns Hinv Hb Hu.
  - destruct Hb as [Hb|[]], Hu as [Hu|[]].
    rewrite Hb, Hu in Hinv. discriminate.
  - assert (Hnext : forall ns',
              ns_build ns' = ns_build ns -> ns_up ns' = ns_up ns ->
              a <> opt_build -> a <> opt_up ->
              exists code : Z,
                parse_args int rest ns' = ParserExit code
                /\ (~ In opt_help (a :: rest) -> code = 2)).
    { intros ns' Eb Eu Nb Nu.
      destruct (IH ns') as (code & Hp & Hc).
      - now rewrite Eb, Eu.
      - rewrite Eb. destruct Hb as [Hb|[Hb|Hb]]; auto; congruence.
      - rewrite Eu. destruct Hu as [Hu|[Hu|Hu]]; auto; congruence.
      - exists code. split; [exact Hp|].
        intros Hh. apply Hc. eapply not_in_cons_help, Hh. }
    destruct a; simpl.
    + destruct (ns_contract ns); [destruct (ns_n_validators ns)|].
      * apply Hnext; simpl; congruence.
      * destruct (int s); [apply Hnext; simpl; congruence|].
        exists 2. now split.
      * apply Hnext; simpl; congruence.
    + apply Hnext; simpl; congruence.
    + destruct (ns_up ns) eqn:Eup; [exists 2; now split|].
      destruct (IH (mkNamespace (ns_contract ns) (ns_n_validators ns)
                      (ns_sudo ns) true (ns_up ns) (ns_avm ns) (ns_extras ns)))
        as (code & Hp & Hc); simpl.
      * now rewrite Eup.
      * now left.
      * destruct Hu as [Hu|[Hu|Hu]]; auto; congruence.
      * exists code. split; [rewrite Eup in Hp; exact Hp|].
        intros Hh. apply Hc. eapply not_in_cons_help, Hh.
    + destruct (ns_build ns) eqn:Ebuild; [exists 2; now split|].
      destruct (IH (mkNamespace (ns_contract ns) (ns_n_validators ns)
                      (ns_sudo ns) (ns_build ns) true (ns_avm ns) (ns_extras ns)))
        as (code & Hp & Hc); simpl.
      * rewrite Ebuild. reflexivity.
      * destruct Hb as [Hb|[Hb|Hb]]; auto; congruence.
      * now left.
      * exists code. split; [rewrite Ebuild in Hp; exact Hp|].
        intros Hh. apply Hc. eapply not_in_cons_help, Hh.
    + match goal with
      | |- context [if ?c then _ else _] => destruct c
      end.
      * apply Hnext; simpl; congruence.
      * exists 2. now split.
    + exists 0. split; [reflexivity|]. intros Hh. exfalso. apply Hh. now left.
    + apply Hnext; simpl; congruence.
Qed.

(** C8.  A command line that carries both [--build] and [--up] never
    reaches [deploy]: the argument parser exits first, with the status 2
    of a usage error unless a [-h] cut the parsing short, and the
    environment and the trace are as they were: no command has run. *)
Theorem C8_both_flags_rejected_at_intake (argv : list Arg) (w : World) :
  In opt_build argv -> In opt_up argv ->
  let run := main abspath ROOT_DIR VALIDATOR_STATES states_path int argv in
  rejected_untouched run w
  /\ events_of run w = []
  /\ exists code : Z,
       run w = (Exit code, w) /\ (~ In opt_help argv -> code = 2).
Proof.
  intros Hb Hu run.
  destruct (parse_args_conflict argv defaults) as (code & Hp & Hc); auto.
  assert (R : run w = (Exit code, w)).
  { unfold run, main. rewrite Hp. reflexivity. }
  split.
  { unfold rejected_untouched. rewrite R. split; [reflexivity|].
    intros a. discriminate. }
  split.
  { apply events_of_eq. rewrite R. simpl. now rewrite app_nil_r. }
  exists code. split; [exact R|exact Hc].
Qed.

End MainClaims.

(** ** The claims on the cache bootstrap and on halt *)

(** C10.  Halt never modifies the file system: the compose file, the
    state tree and the build context are as they were, and apart from
    testing whether the compose file exists, halt runs only commands of
    the container runtime. *)
Theorem C10_halt_keeps_files (sudo_flag : bool) (w : World) :
  let w' := snd (halt_docker sudo_flag w) in
  fst (halt_docker sudo_flag w) = Return tt
  /\ compose_file w' = compose_file w
  /\ validator_states w' = validator_states w
  /\ tmp_dir w' = tmp_dir w
  /\ written (events_of (halt_docker sudo_flag) w) = []
  /\ Forall (fun e => is_file_test e || is_runtime_command e = true)
            (events_of (halt_docker sudo_flag) w).
Proof.
  intros w'.
  destruct (halt_spec sudo_flag w)
    as (w1 & evs & R & T & P & C & _ & Hc & Ht & Hv & _).
  assert (E : events_of (halt_docker sudo_flag) w = evs).
  { apply events_of_eq. now rewrite R. }
  unfold w'. rewrite E, R. simpl.
  repeat split; auto.
  apply (written_other HaltPhase); [exact P|reflexivity].
Qed.

(** ** Runs in concrete environments *)


(** C4, on the code: the first image build of the cache bootstrap fails
    with status 1, and [deploy] goes on all the same: it builds the other
    cache, halts the running deployment (its containers are gone),
    overwrites the compose file, builds and resets the state. *)
Theorem C4_cache_build_failure_ignored :
  let run := deploy0 "c.ao" 2 false true false "cpp" in
  let evs := events_of run live_world in
  existsb is_failed_build evs = true
  /\ fst (run live_world) = Return tt
  /\ runs HaltPhase evs = true
  /\ runs GeneratePhase evs = true
  /\ runs BuildPhase evs = true
  /\ runs ResetPhase evs = true
  /\ length (containers live_world) = 2%nat
  /\ containers (snd (run live_world)) = []
  /\ compose_file (snd (run live_world)) <> compose_file live_world.
Proof. vm_compute. repeat split; discriminate. Qed.

(** C6, on the code: with no matching container running, halt removes
    nothing: the stopped containers of the earlier deployment are still
    in the list of all containers. *)
Theorem C6_stopped_containers_survive_halt :
  let w' := snd (halt_docker false stale_world) in
  compose_file stale_world = None
  /\ running_matching stale_world = []
  /\ length (all_matching stale_world) = 2%nat
  /\ fst (halt_docker false stale_world) = Return tt
  /\ all_matching w' = all_matching stale_world
  /\ all_matching w' <> [].
Proof. vm_compute. repeat split; discriminate. Qed.

(** ** The theorems at concrete inputs *)

Lemma C5_build_failure_aborts_witness :
  let run := deploy0 "c.ao" 2 false false false "cpp" in
  existsb is_failed_compose_build (events_of run failing_build_world) = true
  /\ fst (run failing_build_world) = Exit 1.
Proof.
  split; [vm_compute; reflexivity|].
  apply (C5_build_failure_aborts abspath0 "/repo" "validator-states"
           states_path0 "c.ao" 2 false false false "cpp" failing_build_world).
  vm_compute; reflexivity.
Defined.

Lemma C8_both_flags_rejected_at_intake_witness :
  let argv := [positional "c.ao"; opt_build; positional "2"; opt_up] in
  In opt_build argv /\ In opt_up argv
  /\ rejected_untouched (main0 argv) cached_world.
Proof.
  split; [simpl; tauto|]. split; [simpl; tauto|].
  apply (C8_both_flags_rejected_at_intake abspath0 "/repo" "validator-states"
           states_path0 int0
           [positional "c.ao"; opt_build; positional "2"; opt_up]
           cached_world); simpl; tauto.
Defined.

(** * Further properties of the script *)

(** ** Halt and the containers *)

Lemma running_matching_nil_ids (w : World) :
  map container_id (running_matching w) = [] <-> running_matching w = [].
Proof.
  split; [apply map_eq_nil|intros ->; reflexivity].
Qed.

(** The containers that halt leaves: the compose teardown first, when
    there is a compose file; then, when a matching container is still
    running, the kill of the running ones and the removal of the
    stopped ones. *)
Lemma halt_containers (sudo_flag : bool) (w : World) :
  containers (snd (halt_docker sudo_flag w))
  = let cs := match compose_file w with
              | Some _ => filter (fun c => negb (in_project c)) (containers w)
              | None => containers w
              end in
    match filter (fun c => running c && matches_convention c) cs with
    | [] => cs
    | _ :: _ =>
        filter (fun c => negb (matches_convention c && negb (running c)))
          (map (fun c => if running c && matches_convention c
                         then kill c else c) cs)
    end.
Proof.
  unfold halt_docker, isfile_compose, when, bind, run, log. simpl.
  destruct (compose_file w) eqn:Hc; simpl; rewrite ?Hc; simpl;
    rewrite id_lines_empty; unfold running_matching; simpl;
    match goal with
    | |- context [filter ?f ?l] =>
        destruct (filter f l) eqn:Hf; simpl; try reflexivity
    end;
    unfold running_matching; simpl; rewrite Hf; reflexivity.
Qed.

Lemma filter_nil_of_filter_nil {A} (f g : A -> bool) (l : list A) :
  (forall a, f a = true -> g a = true) ->
  filter g l = [] -> filter f l = [].
Proof.
  intros Hfg. induction l as [|a l IH]; simpl; [reflexivity|].
  destruct (g a) eqn:Hg; [discriminate|].
  intros H. destruct (f a) eqn:Hf; [|exact (IH H)].
  apply Hfg in Hf. congruence.
Qed.

Lemma filter_all {A} (f : A -> bool) (l : list A) :
  Forall (fun a => f a = true) l -> filter f l = l.
Proof.
  induction 1 as [|a l Ha _ IH]; simpl; [reflexivity|].
  now rewrite Ha, IH.
Qed.

Lemma Forall_filter {A} (P : A -> Prop) (f : A -> bool) (l : list A) :
  Forall P l -> Forall P (filter f l).
Proof.
  induction 1 as [|a l Ha _ IH]; simpl; [constructor|].
  destruct (f a); [constructor|]; assumption.
Qed.

(** X1.  After halt no container that matches the naming convention is
    running, whatever the environment was. *)
Theorem halt_leaves_none_running (sudo_flag : bool) (w : World) :
  running_matching (snd (halt_docker sudo_flag w)) = [].
Proof.
  unfold running_matching. rewrite halt_containers. cbv zeta.
  set (cs := match compose_file w with
             | Some _ => filter (fun c => negb (in_project c)) (containers w)
             | None => containers w
             end).
  destruct (filter (fun c => running c && matches_convention c) cs) eqn:Hf.
  - exact Hf.
  - apply (filter_nil_of_filter_nil _ matches_convention).
    + intros a Ha. now apply andb_true_iff in Ha.
    + apply kill_then_rm.
Qed.

(** X2.  When a matching container is still running after the compose
    teardown, halt leaves no matching container at all, stopped ones
    included. *)
Theorem halt_removes_all_when_one_runs (sudo_flag : bool) (w : World) :
  (match compose_file w with
   | Some _ =>
       existsb (fun c => negb (in_project c) && running c
                         && matches_convention c) (containers w)
   | None => existsb (fun c => running c && matches_convention c) (containers w)
   end) = true ->
  all_matching (snd (halt_docker sudo_flag w)) = [].
Proof.
  intros H. unfold all_matching. rewrite halt_containers. cbv zeta.
  set (cs := match compose_file w with
             | Some _ => filter (fun c => negb (in_project c)) (containers w)
             | None => containers w
             end).
  assert (Hne : filter (fun c => running c && matches_convention c) cs <> []).
  { unfold cs. destruct (compose_file w).
    - apply existsb_exists in H. destruct H as (c & Hin & Hc).
      apply andb_true_iff in Hc. destruct Hc as [Hc Hm].
      apply andb_true_iff in Hc. destruct Hc as [Hp Hr].
      intros Hnil.
      assert (Hc : In c (filter (fun c => running c && matches_convention c)
                           (filter (fun c => negb (in_project c)) (containers w)))).
      { apply filter_In. split; [apply filter_In; now split|].
        now rewrite Hr, Hm. }
      rewrite Hnil in Hc. exact Hc.
    - apply existsb_exists in H. destruct H as (c & Hin & Hc).
      intros Hnil.
      assert (Hc' : In c (filter (fun c => running c && matches_convention c)
                            (containers w))).
      { apply filter_In. now split. }
      rewrite Hnil in Hc'. exact Hc'. }
  destruct (filter (fun c => running c && matches_convention c) cs);
    [contradiction|].
  apply kill_then_rm.
Qed.

(** X3.  With no compose file and no matching container running, halt is
    a no-op: it tests for the file, queries the running containers
    quietly, and leaves the environment as it was. *)
Theorem halt_nothing_to_do (sudo_flag : bool) (w : World) :
  compose_file w = None ->
  running_matching w = [] ->
  halt_docker sudo_flag w
  = (Return tt,
     log (Ran docker_ps_grep true true sudo_flag (Text ""))
       (log (IsFile ("./" ++ DOCKER_COMPOSE_FILENAME)%string) w)).
Proof.
  intros Hc Hr.
  unfold halt_docker, isfile_compose, when, bind, run, log. simpl.
  rewrite Hc. simpl. unfold running_matching in *. simpl. rewrite Hr.
  reflexivity.
Qed.

Lemma kill_if_in_project (cs : list Container) :
  Forall (fun c => negb (in_project c) = true) cs ->
  Forall (fun c => negb (in_project c) = true)
    (map (fun c => if running c && matches_convention c then kill c else c) cs).
Proof.
  induction 1 as [|c l Hc _ IH]; simpl; constructor; [|exact IH].
  destruct (running c && matches_convention c); simpl; exact Hc.
Qed.

(** X4.  Halt is idempotent on the containers: a second halt right after
    the first removes nothing more. *)
Theorem halt_idempotent (sudo1 sudo2 : bool) (w : World) :
  let w1 := snd (halt_docker sudo1 w) in
  containers (snd (halt_docker sudo2 w1)) = containers w1.
Proof.
  intros w1.
  assert (Hfile : compose_file w1 = compose_file w).
  { destruct (halt_spec sudo1 w) as (w' & evs & R & _ & _ & _ & _ & Hc & _).
    unfold w1. now rewrite R. }
  assert (Hnone : filter (fun c => running c && matches_convention c)
                    (containers w1) = []).
  { exact (halt_leaves_none_running sudo1 w). }
  rewrite halt_containers. cbv zeta. rewrite Hfile.
  destruct (compose_file w) eqn:Hc.
  - assert (Hout : Forall (fun c => negb (in_project c) = true)
                     (containers w1)).
    { unfold w1. rewrite halt_containers. cbv zeta. rewrite Hc.
      assert (Hf : Forall (fun c => negb (in_project c) = true)
                     (filter (fun c => negb (in_project c)) (containers w))).
      { apply Forall_forall. intros c Hin. now apply filter_In in Hin. }
      destruct (filter _ (filter _ (containers w))); [exact Hf|].
      apply Forall_filter, kill_if_in_project, Hf. }
    rewrite (filter_all _ _ Hout), Hnone. reflexivity.
  - now rewrite Hnone.
Qed.

(** ** Deploy, step by step *)

Section DeploySteps.

Variable abspath : string -> string.
Variable ROOT_DIR : string.
Variable VALIDATOR_STATES : string.
Variable states_path : Z -> string.

Variable contract_name : string.
Variable n_validators : Z.
Variable avm : string.
Variable sudo_flag build_flag up_flag : bool.

Let deploy_here :=
  deploy abspath ROOT_DIR VALIDATOR_STATES states_path
    contract_name n_validators sudo_flag build_flag up_flag avm.

Let after_halt :=
  deploy_after_halt abspath ROOT_DIR VALIDATOR_STATES states_path
    contract_name n_validators sudo_flag build_flag up_flag avm.

(** [deploy] is the two bootstraps, halt, and the rest, each started in
    the environment that the one before left. *)
Lemma deploy_steps (w : World) :
  exists w1 w2 w3 : World,
    bootstrap_build_cache sudo_flag "arb-avm-cpp" w = (Return tt, w1)
    /\ bootstrap_build_cache sudo_flag "arb-validator" w1 = (Return tt, w2)
    /\ halt_docker sudo_flag w2 = (Return tt, w3)
    /\ deploy_here w = after_halt w3.
Proof.
  destruct (bootstrap_spec sudo_flag "arb-avm-cpp" w) as (w1 & e1 & R1 & _).
  destruct (bootstrap_spec sudo_flag "arb-validator" w1) as (w2 & e2 & R2 & _).
  destruct (halt_spec sudo_flag w2) as (w3 & e3 & R3 & _).
  exists w1, w2, w3. repeat split; try assumption.
  unfold deploy_here. rewrite deploy_unfold.
  erewrite bind_return by exact R1.
  erewrite bind_return by exact R2.
  erewrite bind_return by exact R3. reflexivity.
Qed.

Lemma after_halt_states (w : World) :
  match fst (after_halt w) with
  | Return _ =>
      validator_states (snd (after_halt w)) = Some (Py.range 0 n_validators)
  | Exit _ => validator_states (snd (after_halt w)) = validator_states w
  | Raise _ => validator_states (snd (after_halt w)) = None
  end.
Proof.
  unfold after_halt, deploy_after_halt. rewrite compose_contents_render.
  unfold of_option, when, bind, ret, write_compose, run, exec, isdir_states,
    rmtree_states, setup_validator_states_ethbridge, exit, raise,
    next_status, log, set_compose_file, set_validator_states, set_statuses,
    tag_image, set_images.
  simpl.
  destruct up_flag, build_flag; simpl.
  all: destruct (statuses w) as [|s1 [|s2 [|s3 rest]]]; simpl.
  all: destruct (validator_states w); simpl.
  all: repeat match goal with
              | |- context [?z =? 0] => destruct (z =? 0); simpl
              end.
  all: reflexivity.
Qed.

(** X5.  The state tree after [deploy].  When [deploy] returns, the tree
    holds the state of exactly the nodes [0..n_validators-1], whatever
    it held before; when the build phase fails, the tree is as it was;
    when the state bootstrap fails, the old tree is gone. *)
Theorem deploy_state_tree (w : World) :
  match fst (deploy_here w) with
  | Return _ =>
      validator_states (snd (deploy_here w)) = Some (Py.range 0 n_validators)
  | Exit _ => validator_states (snd (deploy_here w)) = validator_states w
  | Raise _ => validator_states (snd (deploy_here w)) = None
  end.
Proof.
  destruct (deploy_steps w) as (w1 & w2 & w3 & R1 & R2 & R3 & ->).
  pose proof (after_halt_states w3) as H.
  assert (Hv : validator_states w3 = validator_states w).
  { destruct (bootstrap_spec sudo_flag "arb-avm-cpp" w)
      as (w1' & e1 & R1' & _ & _ & _ & V1 & _).
    destruct (bootstrap_spec sudo_flag "arb-validator" w1)
      as (w2' & e2 & R2' & _ & _ & _ & V2 & _).
    destruct (halt_spec sudo_flag w2)
      as (w3' & e3 & R3' & _ & _ & _ & _ & _ & _ & V3 & _).
    rewrite R1 in R1'. rewrite R2 in R2'. rewrite R3 in R3'.
    injection R1' as <-. injection R2' as <-. injection R3' as <-.
    congruence. }
  destruct (fst (after_halt w3)); try exact H. now rewrite <- Hv.
Qed.

End DeploySteps.

(** ** The cache bootstrap and the images *)

Lemma bootstrap_uncached_images (sudo_flag : bool) (name : string) (w : World) :
  image_exists name w = false ->
  images (snd (bootstrap_build_cache sudo_flag name w))
  = (if next_succeeds w then images (tag_image name w) else images w)
  /\ statuses (snd (bootstrap_build_cache sudo_flag name w)) = tl (statuses w).
Proof.
  intros H. unfold bootstrap_build_cache.
  erewrite bind_return by apply run_eq.
  rewrite images_query_empty, H. simpl negb. cbv iota beta. unfold when.
  unfold bind, run, exec, next_status, next_succeeds, log. simpl.
  destruct (tmp_dir w), (statuses w) as [|s rest]; simpl.
  all: try destruct (s =? 0) eqn:Hs; simpl.
  all: split; reflexivity.
Qed.

Lemma image_exists_tag_other (name other : string) (w : World) :
  String.eqb name other = false ->
  image_exists other (tag_image name w) = image_exists other w.
Proof.
  intros Hne. unfold image_exists, tag_image. simpl. rewrite Hne. simpl.
  induction (images w) as [|i l IH]; simpl; [reflexivity|].
  destruct (String.eqb (repository i) name) eqn:Hi; simpl.
  - apply String.eqb_eq in Hi. rewrite Hi, Hne. exact IH.
  - now rewrite IH.
Qed.

(** X6.  The cache bootstrap and the cluster.  A bootstrap never touches
    the containers, the compose file or the state tree.  With the image
    in place it changes nothing but the trace; otherwise the build
    context [.tmp] is gone afterwards, whether the build succeeded or
    not, and whether or not a [.tmp] was there before. *)
Theorem bootstrap_frame (sudo_flag : bool) (name : string) (w : World) :
  let w' := snd (bootstrap_build_cache sudo_flag name w) in
  containers w' = containers w
  /\ compose_file w' = compose_file w
  /\ validator_states w' = validator_states w
  /\ (if image_exists name w
      then tmp_dir w' = tmp_dir w /\ images w' = images w
           /\ statuses w' = statuses w
      else tmp_dir w' = None).
Proof.
  intros w'. unfold w'.
  destruct (image_exists name w) eqn:H.
  - rewrite (bootstrap_cached sudo_flag name w H). simpl. auto 10.
  - destruct (bootstrap_uncached sudo_flag name w H)
      as (st & w1 & R & _ & _ & Hc & Hv & Hk & Ht).
    rewrite R. simpl. auto.
Qed.

(** X7.  The cache bootstrap and the images.  After a bootstrap the image
    of that name exists exactly when it existed before or the build
    succeeded; whether an image of any other name exists is not
    changed. *)
Theorem bootstrap_images (sudo_flag : bool) (name : string) (w : World) :
  let w' := snd (bootstrap_build_cache sudo_flag name w) in
  image_exists name w' = image_exists name w || next_succeeds w
  /\ forall other, String.eqb name other = false ->
       image_exists other w' = image_exists other w.
Proof.
  intros w'. unfold w'.
  destruct (image_exists name w) eqn:H.
  - rewrite (bootstrap_cached sudo_flag name w H). simpl.
    split; [exact H|reflexivity].
  - destruct (bootstrap_uncached_images sudo_flag name w H) as [Hi _].
    assert (Hex : forall n,
              image_exists n (snd (bootstrap_build_cache sudo_flag name w))
              = image_exists n (if next_succeeds w then tag_image name w
                                else w)).
    { intros n. unfold image_exists. rewrite Hi.
      now destruct (next_succeeds w). }
    simpl orb. split.
    + rewrite Hex. destruct (next_succeeds w); [|exact H].
      unfold image_exists, tag_image. simpl. now rewrite String.eqb_refl.
    + intros other Hne. rewrite Hex.
      destruct (next_succeeds w); [|reflexivity].
      apply (image_exists_tag_other name other w Hne).
Qed.

(** ** The command line, further *)

Section MainFacts.

Variable abspath : string -> string.
Variable ROOT_DIR : string.
Variable VALIDATOR_STATES : string.
Variable states_path : Z -> string.
Variable int : string -> option Z.

Let main_here := main abspath ROOT_DIR VALIDATOR_STATES states_path int.
Let deploy_here := deploy abspath ROOT_DIR VALIDATOR_STATES states_path.

(** What the parser lets through is a valid request, and its exits are
    the help (status 0) and the usage error (status 2). *)
Lemma parse_args_valid (argv : list Arg) :
  forall ns : Namespace,
    In (ns_avm ns) avm_choices ->
    ns_build ns && ns_up ns = false ->
    match parse_args int argv ns with
    | Args _ _ _ build up avm => In avm avm_choices /\ build && up = false
    | ParserExit code => code = 2 \/ (code = 0 /\ In opt_help argv)
    end.
Proof.
  induction argv as [|a rest IH]; intros ns Havm Hinv.
  - simpl. destruct (ns_contract ns), (ns_n_validators ns); auto.
    destruct (ns_extras ns); auto.
  - assert (Hnext : forall ns',
              In (ns_avm ns') avm_choices ->
              ns_build ns' && ns_up ns' = false ->
              match parse_args int rest ns' with
              | Args _ _ _ build up avm =>
                  In avm avm_choices /\ build && up = false
              | ParserExit code =>
                  code = 2 \/ (code = 0 /\ In opt_help (a :: rest))
              end).
    { intros ns' Ha Hi. specialize (IH ns' Ha Hi).
      destruct (parse_args int rest ns'); [exact IH|].
      destruct IH as [H|[H Hin]]; [now left|right].
      split; [exact H|now right]. }
    destruct a; cbn [parse_args].
    + destruct (ns_contract ns); [destruct (ns_n_validators ns)|].
      * apply Hnext; assumption.
      * destruct (int s); [apply Hnext; assumption|now left].
      * apply Hnext; assumption.
    + apply Hnext; assumption.
    + destruct (ns_up ns) eqn:Eup; [now left|].
      apply Hnext; simpl; [assumption|reflexivity].
    + destruct (ns_build ns) eqn:Ebuild; [now left|].
      apply Hnext; simpl; [assumption|reflexivity].
    + destruct (existsb (String.eqb choice) avm_choices) eqn:Hc;
        [|now left].
      apply Hnext; simpl; [|assumption].
      apply existsb_exists in Hc. destruct Hc as (x & Hin & Hx).
      apply String.eqb_eq in Hx. now subst.
    + right. split; [reflexivity|now left].
    + apply Hnext; assumption.
Qed.

(** X8.  What reaches [deploy].  For every command line, either the
    parser exits, with status 2 or, after a [-h], with status 0, and
    nothing has happened; or [main] is [deploy] on a request whose
    backend is one of [cpp], [go], [test] and whose flags [build] and
    [up] are not both set. *)
Theorem main_intake (argv : list Arg) (w : World) :
  (exists code : Z,
     main_here argv w = (Exit code, w)
     /\ (code = 2 \/ (code = 0 /\ In opt_help argv)))
  \/ (exists contract n sudo build up avm,
        main_here argv = deploy_here contract n sudo build up avm
        /\ In avm avm_choices
        /\ build && up = false).
Proof.
  pose proof (parse_args_valid argv defaults) as H.
  unfold main_here, main.
  destruct (parse_args int argv defaults) as [c n s b u a|code].
  - right. exists c, n, s, b, u, a.
    destruct H as [Ha Hf]; [simpl; auto|reflexivity|].
    repeat split; assumption.
  - left. exists code. split; [reflexivity|].
    apply H; [simpl; auto|reflexivity].
Qed.

Lemma positionals_cons_other (a : Arg) (rest : list Arg) :
  is_positional a = false -> positionals (a :: rest) = positionals rest.
Proof. intros H. unfold positionals. simpl. now rewrite H. Qed.

(** Unless exactly the awaited number of positional arguments is still
    to come, the parser exits. *)
Lemma parse_args_arity (argv : list Arg) :
  forall ns : Namespace,
    ns_extras ns = true \/ length (positionals argv) <> awaited ns ->
    exists code : Z,
      parse_args int argv ns = ParserExit code
      /\ (~ In opt_help argv -> code = 2).
Proof.
  induction argv as [|a rest IH]; intros ns H.
  - simpl. exists 2. split; [|reflexivity].
    unfold awaited in H. simpl in H.
    destruct (ns_contract ns), (ns_n_validators ns); try reflexivity.
    destruct H as [->|H]; [reflexivity|congruence].
  - assert (Hnext : forall ns',
              ns_extras ns' = true
              \/ length (positionals rest) <> awaited ns' ->
              exists code : Z,
                parse_args int rest ns' = ParserExit code
                /\ (~ In opt_help (a :: rest) -> code = 2)).
    { intros ns' H'. destruct (IH ns' H') as (code & Hp & Hc).
      exists code. split; [exact Hp|].
      intros Hh. apply Hc. intros Hin. apply Hh. now right. }
    assert (Hsame : forall ns',
              is_positional a = false ->
              ns_extras ns' = ns_extras ns -> awaited ns' = awaited ns ->
              exists code : Z,
                parse_args int rest ns' = ParserExit code
                /\ (~ In opt_help (a :: rest) -> code = 2)).
    { intros ns' Ha He Hw. apply Hnext. rewrite He, Hw.
      now rewrite (positionals_cons_other a rest Ha) in H. }
    destruct a; simpl.
    + unfold awaited in H. unfold positionals in H. simpl in H.
      fold (positionals rest) in H.
      destruct (ns_contract ns) eqn:Ec; [destruct (ns_n_validators ns) eqn:En|].
      * apply Hnext. now left.
      * destruct (int s); [|exists 2; now split].
        apply Hnext. unfold awaited. simpl.
        destruct H as [H|H]; [now left|right; lia].
      * apply Hnext. unfold awaited. simpl.
        destruct (ns_n_validators ns); destruct H as [H|H];
          try (now left); right; lia.
    + apply Hsame; reflexivity.
    + destruct (ns_up ns); [exists 2; now split|].
      apply Hsame; reflexivity.
    + destruct (ns_build ns); [exists 2; now split|].
      apply Hsame; reflexivity.
    + match goal with
      | |- context [if ?c then _ else _] => destruct c
      end; [|exists 2; now split].
      apply Hsame; reflexivity.
    + exists 0. split; [reflexivity|]. intros Hh. exfalso. apply Hh. now left.
    + apply Hnext. now left.
Qed.

(** X9.  The positional arguments.  A command line that does not carry
    exactly two positional arguments never reaches [deploy]: the parser
    exits, with status 2 unless a [-h] cut the parsing short, and
    nothing has happened. *)
Theorem main_arity (argv : list Arg) (w : World) :
  length (positionals argv) <> 2%nat ->
  exists code : Z,
    main_here argv w = (Exit code, w)
    /\ (~ In opt_help argv -> code = 2).
Proof.
  intros H.
  destruct (parse_args_arity argv defaults) as (code & Hp & Hc).
  { right. exact H. }
  exists code. split; [|exact Hc].
  unfold main_here, main. now rewrite Hp.
Qed.


End MainFacts.

(** ** The text of the compose file, line by line *)

Lemma append_assoc (a b c : string) : ((a ++ b) ++ c = a ++ (b ++ c))%string.
Proof. induction a as [|x a IH]; simpl; [reflexivity|now rewrite IH]. Qed.

Lemma lines_from_app (a : string) :
  forall cur rest : string,
    no_newline a = true ->
    lines_from cur (a ++ rest)%string = lines_from (cur ++ a)%string rest.
Proof.
  induction a as [|x a IH]; intros cur rest H; simpl.
  - now rewrite append_empty_r.
  - simpl in H. apply andb_true_iff in H. destruct H as [Hx Ha].
    apply negb_true_iff in Hx. rewrite Hx.
    rewrite (IH _ _ Ha). f_equal.
    rewrite append_assoc. reflexivity.
Qed.

Lemma lines_from_nl (cur rest : string) :
  lines_from cur (nl ++ rest)%string = cur :: lines_from EmptyString rest.
Proof. reflexivity. Qed.

Lemma no_newline_uint (d : Decimal.uint) :
  no_newline (NilEmpty.string_of_uint d) = true.
Proof. induction d; simpl; auto. Qed.

Lemma no_newline_str_of_int (z : Z) : no_newline (Py.str_of_int z) = true.
Proof.
  unfold Py.str_of_int. destruct (Z.to_int z) as [d|d]; simpl.
  - destruct d; try reflexivity; apply (no_newline_uint (_ d)).
  - destruct d; try reflexivity; apply (no_newline_uint (_ d)).
Qed.

Ltac split_lines :=
  repeat first
    [ rewrite lines_from_nl
    | rewrite lines_from_app
        by first [ reflexivity | assumption | apply no_newline_str_of_int ] ].

Lemma peer_block_lines (b : PeerBlock) (rest : string) :
  no_newline (peer_state b) = true ->
  no_newline (peer_contract b) = true ->
  no_newline (peer_backend b) = true ->
  lines_from EmptyString (render_peer b ++ rest)%string
  = peer_lines b ++ lines_from EmptyString rest.
Proof.
  intros Hs Hc Ha. unfold render_peer.
  rewrite !append_assoc.
  split_lines.
  reflexivity.
Qed.

Lemma coordinator_block_lines (b : CoordinatorBlock) (rest : string) :
  no_newline (coordinator_state b) = true ->
  no_newline (coordinator_contract b) = true ->
  no_newline (coordinator_context b) = true ->
  no_newline (coordinator_dockerfile b) = true ->
  no_newline (coordinator_backend b) = true ->
  lines_from EmptyString (render_coordinator b ++ rest)%string
  = coordinator_lines b ++ lines_from EmptyString rest.
Proof.
  intros Hs Hc Hx Hd Ha. unfold render_coordinator.
  rewrite !append_assoc.
  split_lines.
  reflexivity.
Qed.

Lemma absolute_line_inv (p : string) :
  absolute_line p = true ->
  exists p', p = String "/" p' /\ no_newline p = true.
Proof.
  unfold absolute_line. intros H. apply andb_true_iff in H.
  destruct H as [Hp Hn]. destruct p as [|x p']; [discriminate|].
  cbn [String.prefix] in Hp.
  destruct (ascii_dec "/" x) as [<-|]; [|discriminate].
  now exists p'.
Qed.

Lemma prefix_nil (s : string) : String.prefix "" s = true.
Proof. now destruct s. Qed.

Lemma peer_identity_lines (b : PeerBlock) :
  absolute_line (peer_state b) = true ->
  absolute_line (peer_contract b) = true ->
  filter (String.prefix "            - ID=") (peer_lines b)
  = [identity_line (peer_identity b)].
Proof.
  intros Hs Hc. destruct b as [i state contract backend]. simpl in *.
  destruct (absolute_line_inv _ Hs) as (s' & -> & _).
  destruct (absolute_line_inv _ Hc) as (c' & -> & _).
  unfold peer_lines, identity_line. cbn. now rewrite prefix_nil.
Qed.

Lemma peer_service_lines (b : PeerBlock) :
  filter (String.prefix "    arb-validator") (peer_lines b)
  = [peer_service_line (peer_identity b)].
Proof.
  unfold peer_lines, peer_service_line. cbn. now rewrite prefix_nil.
Qed.

Lemma coordinator_identity_lines (b : CoordinatorBlock) :
  absolute_line (coordinator_state b) = true ->
  absolute_line (coordinator_contract b) = true ->
  filter (String.prefix "            - ID=") (coordinator_lines b)
  = [identity_line 0].
Proof.
  intros Hs Hc. destruct b as [state contract context dockerfile backend].
  simpl in *.
  destruct (absolute_line_inv _ Hs) as (s' & -> & _).
  destruct (absolute_line_inv _ Hc) as (c' & -> & _).
  reflexivity.
Qed.

Lemma coordinator_service_lines (b : CoordinatorBlock) :
  filter (String.prefix "    arb-validator") (coordinator_lines b)
  = ["    arb-validator-coordinator:"%string].
Proof. reflexivity. Qed.

Lemma peers_lines (ps : list PeerBlock) :
  Forall (fun b => no_newline (peer_state b) = true
                   /\ no_newline (peer_contract b) = true
                   /\ no_newline (peer_backend b) = true) ps ->
  lines_from EmptyString (Py.join_empty (map render_peer ps))
  = flat_map peer_lines ps.
Proof.
  induction 1 as [|b ps (Hs & Hc & Ha) _ IH]; [reflexivity|].
  cbn [map Py.join_empty fold_right flat_map].
  fold (Py.join_empty (map render_peer ps)).
  now rewrite peer_block_lines, IH.
Qed.

Lemma filter_flat_map {A B} (f : B -> bool) (g : A -> list B) (h : A -> B)
    (l : list A) :
  Forall (fun a => filter f (g a) = [h a]) l ->
  filter f (flat_map g l) = map h l.
Proof.
  induction 1 as [|a l Ha _ IH]; simpl; [reflexivity|].
  now rewrite filter_app, Ha, IH.
Qed.

Lemma str_of_int_inj (i j : Z) : Py.str_of_int i = Py.str_of_int j -> i = j.
Proof.
  unfold Py.str_of_int. intros H.
  assert (Hnz : forall z, Z.to_int z <> Decimal.Pos Decimal.Nil
                          /\ Z.to_int z <> Decimal.Neg Decimal.Nil).
  { intros [|p|p]; simpl; split; try discriminate;
      intros [= Hp]; now apply DecimalPos.Unsigned.to_uint_nonnil in Hp. }
  apply (f_equal NilZero.int_of_string) in H.
  rewrite !NilZero.isi in H by apply Hnz.
  injection H as H. now apply DecimalZ.to_int_inj.
Qed.

Lemma append_colon_inj (a : string) :
  forall b : string, (a ++ ":" = b ++ ":")%string -> a = b.
Proof.
  induction a as [|x a IH]; intros [|y b] H; simpl in H.
  - reflexivity.
  - injection H as _ H. now destruct b.
  - injection H as _ H. now destruct a.
  - injection H as -> H. f_equal. now apply IH.
Qed.

Lemma peer_service_line_inj (i j : Z) :
  peer_service_line i = peer_service_line j -> i = j.
Proof.
  unfold peer_service_line. cbn [append]. intros H.
  injection H as H. now apply str_of_int_inj, append_colon_inj.
Qed.

Lemma str_of_int_positive (i : Z) :
  1 <= i -> exists c s, Py.str_of_int i = String c s /\ c <> "-"%char.
Proof.
  intros Hi. destruct i as [|p|p]; try lia.
  unfold Py.str_of_int. simpl.
  pose proof (DecimalPos.Unsigned.to_uint_nonnil p) as Hn.
  destruct (Pos.to_uint p); [contradiction|..]; simpl;
    eexists; eexists; (split; [reflexivity|discriminate]).
Qed.

Lemma peer_service_line_not_coordinator (i : Z) :
  1 <= i -> peer_service_line i <> "    arb-validator-coordinator:"%string.
Proof.
  intros Hi H. destruct (str_of_int_positive i Hi) as (c & s & E & Hc).
  unfold peer_service_line in H. rewrite E in H. cbn [append] in H.
  injection H as H _. congruence.
Qed.

Lemma NoDup_map_injective {A B} (f : A -> B) (l : list A) :
  (forall x y, f x = f y -> x = y) -> NoDup l -> NoDup (map f l).
Proof.
  intros Hf. induction 1 as [|a l Ha _ IH]; simpl; constructor; [|exact IH].
  intros Hin. apply in_map_iff in Hin. destruct Hin as (x & Hx & Hl).
  apply Hf in Hx. now subst.
Qed.

Lemma range_NoDup (lo hi : Z) : NoDup (Py.range lo hi).
Proof.
  pose proof (range_sorted lo hi) as Hsorted.
  induction Hsorted as [|a l _ IH Hall]; constructor; [|exact IH].
  intros Hin. rewrite Forall_forall in Hall.
  specialize (Hall a Hin). lia.
Qed.

Section ComposeText.

Variable abspath : string -> string.
Variable ROOT_DIR : string.
Variable VALIDATOR_STATES : string.
Variable states_path : Z -> string.

(** X11.  The text of the compose file.  When the paths are absolute and
    neither they nor the backend selector hold a newline, the lines of
    the compose file that [deploy] writes declare the identities 0, 1,
    ..., [n_validators - 1], in this order and once each, and open the
    services [arb-validator-coordinator], [arb-validator1], ...,
    one per node, under pairwise different names. *)
Theorem compose_file_lines
    (contract_name : string) (n : Z) (sudo_flag build_flag up_flag : bool)
    (avm : string) (w : World) :
  absolute_line (abspath contract_name) = true ->
  no_newline (abspath (os_path_join ROOT_DIR "packages")) = true ->
  no_newline avm = true ->
  forallb (fun i => absolute_line (states_path i)) (0 :: Py.range 1 n) = true ->
  exists text : string,
    compose_file
      (snd (deploy abspath ROOT_DIR VALIDATOR_STATES states_path
              contract_name n sudo_flag build_flag up_flag avm w))
    = Some text
    /\ identity_lines text = map identity_line (0 :: Py.range 1 n)
    /\ service_lines text
       = "    arb-validator-coordinator:"%string
           :: map peer_service_line (Py.range 1 n)
    /\ NoDup (service_lines text).
Proof.
  intros Hc Hx Ha Hs.
  destruct (deploy_spec abspath ROOT_DIR VALIDATOR_STATES states_path
              contract_name n avm sudo_flag build_flag up_flag w)
    as (o & w' & evs & R & _ & F & _).
  rewrite R. simpl snd. rewrite F. eexists. split; [reflexivity|].
  simpl in Hs. apply andb_true_iff in Hs. destruct Hs as [Hs0 Hs].
  rewrite forallb_forall in Hs.
  assert (Hcn : no_newline (abspath contract_name) = true).
  { unfold absolute_line in Hc. now apply andb_true_iff in Hc. }
  set (ps := peers (generate abspath ROOT_DIR states_path contract_name n avm)).
  assert (Hps : Forall (fun b => absolute_line (peer_state b) = true
                                 /\ peer_contract b = abspath contract_name
                                 /\ peer_backend b = avm) ps).
  { unfold ps, generate. simpl. apply Forall_forall. intros b Hb.
    apply in_map_iff in Hb. destruct Hb as (i & <- & Hi). simpl.
    split; [now apply Hs|now split]. }
  assert (Hids : map peer_identity ps = Py.range 1 n).
  { unfold ps, generate. simpl. rewrite map_map. simpl. apply map_id. }
  assert (Hlines :
    splitlines (render (generate abspath ROOT_DIR states_path
                          contract_name n avm))
    = coordinator_lines
        (coordinator (generate abspath ROOT_DIR states_path contract_name n avm))
      ++ flat_map peer_lines ps).
  { unfold splitlines, render. fold ps. rewrite coordinator_block_lines.
    - f_equal. apply peers_lines. eapply Forall_impl; [|exact Hps].
      simpl. intros b (Hb & -> & ->). repeat split; try assumption.
      unfold absolute_line in Hb. now apply andb_true_iff in Hb.
    - simpl. unfold absolute_line in Hs0. now apply andb_true_iff in Hs0.
    - exact Hcn.
    - exact Hx.
    - reflexivity.
    - exact Ha. }
  assert (Hid : identity_lines
                  (render (generate abspath ROOT_DIR states_path
                             contract_name n avm))
                = map identity_line (0 :: Py.range 1 n)).
  { unfold identity_lines. rewrite Hlines, filter_app.
    rewrite coordinator_identity_lines by (simpl; assumption).
    rewrite (filter_flat_map _ _ (fun b => identity_line (peer_identity b))).
    - cbn [map app]. now rewrite <- Hids, map_map.
    - eapply Forall_impl; [|exact Hps]. simpl. intros b (Hb & Hbc & _).
      apply peer_identity_lines; [exact Hb|now rewrite Hbc]. }
  assert (Hsv : service_lines
                  (render (generate abspath ROOT_DIR states_path
                             contract_name n avm))
                = "    arb-validator-coordinator:"%string
                    :: map peer_service_line (Py.range 1 n)).
  { unfold service_lines. rewrite Hlines, filter_app.
    rewrite coordinator_service_lines.
    rewrite (filter_flat_map _ _
               (fun b => peer_service_line (peer_identity b))).
    - cbn [app]. now rewrite <- Hids, map_map.
    - apply Forall_forall. intros b _. apply peer_service_lines. }
  split; [exact Hid|]. split; [exact Hsv|].
  rewrite Hsv. constructor.
  - intros Hin. apply in_map_iff in Hin. destruct Hin as (i & Hi & Hr).
    apply range_In in Hr.
    apply (peer_service_line_not_coordinator i); [lia|exact Hi].
  - apply NoDup_map_injective.
    + intros i j. apply peer_service_line_inj.
    + apply range_NoDup.
Qed.

End ComposeText.

(** ** The events of deploy, part by part *)

Lemma bootstrap_events (sudo_flag : bool) (name : string) (w : World) :
  trace (snd (bootstrap_build_cache sudo_flag name w))
  = trace w ++ events_of (bootstrap_build_cache sudo_flag name) w.
Proof.
  destruct (bootstrap_spec sudo_flag name w) as (w' & evs & R & T & _).
  rewrite (events_of_eq _ w evs); now rewrite R.
Qed.

Lemma halt_events (sudo_flag : bool) (w : World) :
  trace (snd (halt_docker sudo_flag w))
  = trace w ++ events_of (halt_docker sudo_flag) w.
Proof.
  destruct (halt_spec sudo_flag w) as (w' & evs & R & T & _).
  rewrite (events_of_eq _ w evs); now rewrite R.
Qed.

Lemma bootstrap_privilege (sudo_flag : bool) (name : string) (w : World) :
  forallb (privilege_as_asked sudo_flag)
    (events_of (bootstrap_build_cache sudo_flag name) w) = true.
Proof.
  assert (H : exists evs,
             trace (snd (bootstrap_build_cache sudo_flag name w))
             = trace w ++ evs
             /\ forallb (privilege_as_asked sudo_flag) evs = true).
  { destruct (image_exists name w) eqn:H.
    - rewrite (bootstrap_cached sudo_flag name w H). simpl.
      eexists. split; [reflexivity|]. simpl. now destruct sudo_flag.
    - destruct (bootstrap_uncached sudo_flag name w H)
        as (st & w' & R & T & _).
      rewrite R. simpl. eexists. split; [exact T|].
      simpl. now destruct sudo_flag. }
  destruct H as (evs & T & P). now rewrite (events_of_eq _ w evs T).
Qed.

Lemma halt_privilege (sudo_flag : bool) (w : World) :
  forallb (privilege_as_asked sudo_flag)
    (events_of (halt_docker sudo_flag) w) = true.
Proof.
  assert (H : exists evs,
             trace (snd (halt_docker sudo_flag w)) = trace w ++ evs
             /\ forallb (privilege_as_asked sudo_flag) evs = true).
  { unfold halt_docker, isfile_compose, when, bind, run, log. simpl.
    destruct (compose_file w) eqn:Hc; simpl; rewrite ?Hc; simpl;
      match goal with
      | |- context [String.eqb ?a ?b] => destruct (String.eqb a b); simpl
      end;
      (eexists; split; [repeat rewrite <- app_assoc; reflexivity|];
       simpl; now destruct sudo_flag). }
  destruct H as (evs & T & P). now rewrite (events_of_eq _ w evs T).
Qed.

Section DeployEvents.

Variable abspath : string -> string.
Variable ROOT_DIR : string.
Variable VALIDATOR_STATES : string.
Variable states_path : Z -> string.

Variable contract_name : string.
Variable n_validators : Z.
Variable avm : string.
Variable sudo_flag build_flag up_flag : bool.

Let deploy_here :=
  deploy abspath ROOT_DIR VALIDATOR_STATES states_path
    contract_name n_validators sudo_flag build_flag up_flag avm.

Let after_halt :=
  deploy_after_halt abspath ROOT_DIR VALIDATOR_STATES states_path
    contract_name n_validators sudo_flag build_flag up_flag avm.

Lemma after_halt_events (w : World) :
  trace (snd (after_halt w)) = trace w ++ events_of after_halt w.
Proof.
  destruct (deploy_after_halt_spec abspath ROOT_DIR VALIDATOR_STATES
              states_path contract_name n_validators avm
              sudo_flag build_flag up_flag w)
    as (o & w' & evs & R & T & _).
  unfold after_halt. rewrite (events_of_eq _ w _ ltac:(rewrite R; exact T)).
  now rewrite R.
Qed.

(** The events of [deploy] are those of its four parts, each in the
    environment that the part before left. *)
Lemma deploy_events (w : World) :
  exists w1 w2 w3 : World,
    w1 = snd (bootstrap_build_cache sudo_flag "arb-avm-cpp" w)
    /\ w2 = snd (bootstrap_build_cache sudo_flag "arb-validator" w1)
    /\ w3 = snd (halt_docker sudo_flag w2)
    /\ deploy_here w = after_halt w3
    /\ events_of deploy_here w
       = events_of (bootstrap_build_cache sudo_flag "arb-avm-cpp") w
         ++ events_of (bootstrap_build_cache sudo_flag "arb-validator") w1
         ++ events_of (halt_docker sudo_flag) w2
         ++ events_of after_halt w3.
Proof.
  destruct (deploy_steps abspath ROOT_DIR VALIDATOR_STATES states_path
              contract_name n_validators avm sudo_flag build_flag up_flag w)
    as (w1 & w2 & w3 & R1 & R2 & R3 & R).
  exists w1, w2, w3.
  assert (E1 : w1 = snd (bootstrap_build_cache sudo_flag "arb-avm-cpp" w))
    by now rewrite R1.
  assert (E2 : w2 = snd (bootstrap_build_cache sudo_flag "arb-validator" w1))
    by now rewrite R2.
  assert (E3 : w3 = snd (halt_docker sudo_flag w2)) by now rewrite R3.
  assert (Hd : deploy_here w = after_halt w3) by exact R.
  assert (T1 : trace w1 = trace w ++
                 events_of (bootstrap_build_cache sudo_flag "arb-avm-cpp") w)
    by (rewrite E1; apply bootstrap_events).
  assert (T2 : trace w2 = trace w1 ++
                 events_of (bootstrap_build_cache sudo_flag "arb-validator") w1)
    by (rewrite E2; apply bootstrap_events).
  assert (T3 : trace w3 = trace w2 ++ events_of (halt_docker sudo_flag) w2)
    by (rewrite E3; apply halt_events).
  repeat split; try assumption.
  apply events_of_eq. rewrite Hd, after_halt_events, T3, T2, T1.
  now rewrite <- !app_assoc.
Qed.

Lemma after_halt_privilege (w : World) :
  forallb (privilege_as_asked sudo_flag) (events_of after_halt w) = true.
Proof.
  assert (H : exists evs,
             trace (snd (after_halt w)) = trace w ++ evs
             /\ forallb (privilege_as_asked sudo_flag) evs = true).
  { unfold after_halt, deploy_after_halt. rewrite compose_contents_render.
    unfold of_option, when, bind, ret, write_compose, run, exec, isdir_states,
      rmtree_states, setup_validator_states_ethbridge, exit, raise,
      next_status, log, set_compose_file, set_validator_states, set_statuses,
      tag_image, set_images.
    simpl.
    destruct up_flag, build_flag; simpl.
    all: destruct (statuses w) as [|s1 [|s2 [|s3 rest]]]; simpl.
    all: destruct (validator_states w); simpl.
    all: repeat match goal with
                | |- context [?z =? 0] => destruct (z =? 0); simpl
                end.
    all: eexists; split; [repeat rewrite <- app_assoc; reflexivity|].
    all: simpl; now destruct sudo_flag. }
  destruct H as (evs & T & P). now rewrite (events_of_eq _ w evs T).
Qed.

(** X12.  Privilege.  In every run of [deploy], every command of the
    container runtime and the state bootstrap run with [sudo] exactly
    when [sudo_flag] is set, the listing inside [docker kill $(...)] and
    [docker rm $(...)] included; the commands on the build context
    ([mkdir], [echo], [rm]) never run with [sudo]. *)
Theorem deploy_privilege (w : World) :
  forallb (privilege_as_asked sudo_flag) (events_of deploy_here w) = true.
Proof.
  destruct (deploy_events w) as (w1 & w2 & w3 & _ & _ & _ & _ & ->).
  rewrite !forallb_app.
  now rewrite !bootstrap_privilege, halt_privilege, after_halt_privilege.
Qed.

End DeployEvents.

(** ** Halt after a deploy *)

Lemma halt_with_file (sudo_flag : bool) (w : World) (d : string) :
  compose_file w = Some d ->
  (exists rest,
     events_of (halt_docker sudo_flag) w
     = IsFile ("./" ++ DOCKER_COMPOSE_FILENAME)%string
         :: Ran compose_down true false sudo_flag (Text "") :: rest)
  /\ forallb (fun c => negb (in_project c))
       (containers (snd (halt_docker sudo_flag w))) = true.
Proof.
  intros Hc. split.
  - assert (H : exists rest,
               trace (snd (halt_docker sudo_flag w))
               = trace w ++
                   IsFile ("./" ++ DOCKER_COMPOSE_FILENAME)%string
                     :: Ran compose_down true false sudo_flag (Text "") :: rest).
    { unfold halt_docker, isfile_compose, when, bind, run, log. simpl.
      rewrite Hc. simpl. rewrite ?Hc. simpl.
      match goal with
      | |- context [String.eqb ?a ?b] => destruct (String.eqb a b); simpl
      end; eexists; repeat rewrite <- app_assoc; reflexivity. }
    destruct H as (rest & T). exists rest. now apply events_of_eq.
  - rewrite halt_containers. cbv zeta. rewrite Hc.
    assert (Hf : Forall (fun c => negb (in_project c) = true)
                   (filter (fun c => negb (in_project c)) (containers w))).
    { apply Forall_forall. intros c Hin. now apply filter_In in Hin. }
    apply forallb_forall. apply Forall_forall.
    destruct (filter _ (filter _ (containers w))); [exact Hf|].
    apply Forall_filter, kill_if_in_project, Hf.
Qed.

Section Redeploy.

Variable abspath : string -> string.
Variable ROOT_DIR : string.
Variable VALIDATOR_STATES : string.
Variable states_path : Z -> string.

Let deploy_here := deploy abspath ROOT_DIR VALIDATOR_STATES states_path.

(** X13.  Tearing a deployment down.  After a run of [deploy] that
    has written the compose file, whatever its outcome then, a halt
    tears the compose project down right after testing for the file,
    and a second [deploy], whatever its arguments, does this teardown
    as part of its halt. *)
Theorem teardown_after_deploy
    (contract1 contract2 : string) (n1 n2 : Z)
    (sudo1 build1 up1 sudo2 build2 up2 sudo3 : bool) (avm1 avm2 : string)
    (w : World) :
  written (events_of (deploy_here contract1 n1 sudo1 build1 up1 avm1) w) <> [] ->
  let w1 := snd (deploy_here contract1 n1 sudo1 build1 up1 avm1 w) in
  (exists rest,
     events_of (halt_docker sudo3) w1
     = IsFile ("./" ++ DOCKER_COMPOSE_FILENAME)%string
         :: Ran compose_down true false sudo3 (Text "") :: rest)
  /\ existsb is_compose_down
       (events_of (deploy_here contract2 n2 sudo2 build2 up2 avm2) w1) = true.
Proof.
  intros _ w1.
  assert (Hfile : exists d, compose_file w1 = Some d).
  { destruct (deploy_spec abspath ROOT_DIR VALIDATOR_STATES states_path
                contract1 n1 avm1 sudo1 build1 up1 w)
      as (o & w' & evs & R & _ & F & _).
    eexists. unfold w1, deploy_here. rewrite R. exact F. }
  destruct Hfile as (d & Hd).
  destruct (halt_with_file sudo3 w1 d Hd) as [He _].
  split; [exact He|].
  destruct (deploy_events abspath ROOT_DIR VALIDATOR_STATES states_path
              contract2 n2 avm2 sudo2 build2 up2 w1)
    as (v1 & v2 & v3 & E1 & E2 & E3 & _ & Hev).
  unfold deploy_here. rewrite Hev. rewrite !existsb_app.
  assert (Hd2 : compose_file v2 = Some d).
  { pose proof (bootstrap_frame sudo2 "arb-avm-cpp" w1) as (_ & F1 & _).
    pose proof (bootstrap_frame sudo2 "arb-validator" v1) as (_ & F2 & _).
    rewrite <- E1 in F1. rewrite <- E2 in F2. congruence. }
  destruct (halt_with_file sudo2 v2 d Hd2) as [(rest & ->) _].
  simpl. now rewrite !orb_true_r.
Qed.

End Redeploy.

(** ** The further properties at concrete inputs *)

Lemma halt_removes_all_when_one_runs_witness :
  existsb (fun c => running c && matches_convention c)
    (containers foreign_world) = true
  /\ all_matching (snd (halt_docker false foreign_world)) = [].
Proof.
  split; [reflexivity|].
  apply (halt_removes_all_when_one_runs false foreign_world). reflexivity.
Defined.

Lemma halt_nothing_to_do_witness :
  compose_file stale_world = None
  /\ running_matching stale_world = []
  /\ halt_docker true stale_world
     = (Return tt,
        log (Ran docker_ps_grep true true true (Text ""))
          (log (IsFile ("./" ++ DOCKER_COMPOSE_FILENAME)%string) stale_world)).
Proof.
  split; [reflexivity|]. split; [reflexivity|].
  apply (halt_nothing_to_do true stale_world); reflexivity.
Defined.

Lemma bootstrap_images_witness :
  String.eqb "arb-avm-cpp" "arb-validator" = false
  /\ image_exists "arb-validator"
       (snd (bootstrap_build_cache false "arb-avm-cpp" live_world))
     = image_exists "arb-validator" live_world.
Proof.
  split; [reflexivity|].
  apply (bootstrap_images false "arb-avm-cpp" live_world). reflexivity.
Defined.

Lemma main_arity_witness :
  length (positionals [positional "c.ao"; opt_sudo]) <> 2%nat
  /\ exists code : Z,
       main0 [positional "c.ao"; opt_sudo] live_world = (Exit code, live_world)
       /\ (~ In opt_help [positional "c.ao"; opt_sudo] -> code = 2).
Proof.
  split; [simpl; lia|].
  apply (main_arity abspath0 "/repo" "validator-states" states_path0 int0
           [positional "c.ao"; opt_sudo] live_world).
  simpl; lia.
Defined.

Lemma compose_file_lines_witness :
  absolute_line (abspath0 "c.ao") = true
  /\ no_newline (abspath0 (os_path_join "/repo" "packages")) = true
  /\ no_newline "go" = true
  /\ forallb (fun i => absolute_line (states_path0 i)) (0 :: Py.range 1 3)
     = true
  /\ exists text : string,
       compose_file
         (snd (deploy0 "c.ao" 3 true false true "go" live_world))
       = Some text
       /\ identity_lines text = map identity_line (0 :: Py.range 1 3)
       /\ service_lines text
          = "    arb-validator-coordinator:"%string
              :: map peer_service_line (Py.range 1 3)
       /\ NoDup (service_lines text).
Proof.
  split; [vm_compute; reflexivity|]. split; [vm_compute; reflexivity|].
  split; [vm_compute; reflexivity|]. split; [vm_compute; reflexivity|].
  apply (compose_file_lines abspath0 "/repo" "validator-states" states_path0
           "c.ao" 3 true false true "go" live_world);
    vm_compute; reflexivity.
Defined.

(** * The order and the completion of the phases *)

Section DeployShape.

Variable abspath : string -> string.
Variable ROOT_DIR : string.
Variable VALIDATOR_STATES : string.
Variable states_path : Z -> string.

Variable contract_name : string.
Variable n_validators : Z.
Variable avm : string.
Variable sudo_flag build_flag up_flag : bool.

Let deploy_here :=
  deploy abspath ROOT_DIR VALIDATOR_STATES states_path
    contract_name n_validators sudo_flag build_flag up_flag avm.

Let after_halt :=
  deploy_after_halt abspath ROOT_DIR VALIDATOR_STATES states_path
    contract_name n_validators sudo_flag build_flag up_flag avm.

Let document : string :=
  render (generate abspath ROOT_DIR states_path contract_name n_validators avm).

Let compose : string := abspath ("./" ++ DOCKER_COMPOSE_FILENAME)%string.





End DeployShape.

(** * The cache bootstrap, twice *)

(** C7, amended.  With an image of that name in place the bootstrap
    performs no image build and leaves the images as they are; without
    it the bootstrap performs exactly one.  Two bootstraps in a row
    perform no build when the image was in place, one build when the
    build of the first succeeds, and two builds when it fails (the
    second bootstrap tries again); at most one of them succeeds. *)
Theorem C7_bootstrap_build_counts
    (sudo_flag : bool) (name : string) (w : World) :
  let once := bootstrap_build_cache sudo_flag name in
  let twice := once ;;; once in
  (image_exists name w = true ->
   build_invocations (events_of once w) = 0%nat
   /\ images (snd (once w)) = images w)
  /\ build_invocations (events_of once w)
     = (if image_exists name w then 0 else 1)%nat
  /\ build_invocations (events_of twice w)
     = (if image_exists name w then 0
        else if next_succeeds w then 1 else 2)%nat
  /\ (successful_builds (events_of twice w) <= 1)%nat.
Proof.
  intros once twice.
  set (q := fun v => Ran (docker_images_q name) true true sudo_flag
                         (run_result (docker_images_q name) true v)).
  assert (Hcached : forall v, image_exists name v = true ->
            once v = (Return tt, log (q v) v)).
  { intros v Hv. apply bootstrap_cached, Hv. }
  destruct (image_exists name w) eqn:H.
  - (* the image is in place: two queries *)
    assert (E1 : events_of once w = [q w]).
    { apply events_of_eq. now rewrite (Hcached w H). }
    assert (R : twice w = once (snd (once w))).
    { unfold twice. erewrite bind_return by (apply Hcached, H).
      now rewrite (Hcached w H). }
    assert (E2 : events_of twice w = [q w; q (log (q w) w)]).
    { apply events_of_eq. rewrite R, (Hcached w H). simpl snd.
      rewrite Hcached by exact H. simpl. now rewrite <- app_assoc. }
    rewrite E1, E2, (Hcached w H).
    unfold successful_builds, build_invocations, q. simpl.
    repeat split; lia.
  - destruct (bootstrap_uncached sudo_flag name w H)
      as (st & w1 & R1 & T1 & I1 & _).
    fold (q w) in T1.
    assert (Hst : (st =? 0) = next_succeeds w).
    { pose proof (bootstrap_images sudo_flag name w) as [Hi _].
      unfold once in *. rewrite R1 in Hi. simpl in Hi.
      rewrite H in Hi. simpl in Hi. congruence. }
    assert (R : twice w = once w1).
    { unfold twice. now erewrite bind_return by exact R1. }
    assert (E1 : events_of once w = _)
      by (apply events_of_eq; unfold once; rewrite R1; exact T1).
    rewrite E1. rewrite <- Hst.
    split; [discriminate|].
    split; [unfold build_invocations, q; reflexivity|].
    destruct (st =? 0) eqn:Hz.
    + (* the build succeeded: the second bootstrap is a query *)
      apply Z.eqb_eq in Hz. subst st.
      assert (T : trace (snd (twice w)) = trace w ++
                [ q w;
                  Ran mkdir_tmp false false false (Status 0);
                  Ran (echo_dockerfile DOCKERFILE_CACHE) false false false
                      (Status 0);
                  Ran (docker_build name) false false sudo_flag (Status 0);
                  Ran rm_tmp false false false (Status 0);
                  q w1 ]).
      { rewrite R, (Hcached w1 I1). simpl. rewrite T1.
        now rewrite <- app_assoc. }
      rewrite (events_of_eq twice w _ T).
      unfold successful_builds, build_invocations, q. simpl. split; lia.
    + (* the build failed: the second bootstrap builds again *)
      destruct (bootstrap_uncached sudo_flag name w1 I1)
        as (st2 & w2 & R2 & T2 & _).
      fold (q w1) in T2.
      assert (T : trace (snd (twice w)) = trace w ++
                [ q w;
                  Ran mkdir_tmp false false false (Status 0);
                  Ran (echo_dockerfile DOCKERFILE_CACHE) false false false
                      (Status 0);
                  Ran (docker_build name) false false sudo_flag (Status st);
                  Ran rm_tmp false false false (Status 0);
                  q w1;
                  Ran mkdir_tmp false false false (Status 0);
                  Ran (echo_dockerfile DOCKERFILE_CACHE) false false false
                      (Status 0);
                  Ran (docker_build name) false false sudo_flag (Status st2);
                  Ran rm_tmp false false false (Status 0) ]).
      { rewrite R. unfold once. rewrite R2. simpl. rewrite T2, T1.
        now rewrite <- app_assoc. }
      rewrite (events_of_eq twice w _ T).
      split; [unfold build_invocations, q; reflexivity|].
      unfold successful_builds, q.
      destruct st; [discriminate Hz| |]; destruct st2; simpl; lia.
Qed.

(** * What the compose file is a function of *)



(** * The compose file, block by block *)

Lemma strip_prefix_app (p s : string) : strip_prefix p (p ++ s) = Some s.
Proof.
  induction p as [|a p IH]; simpl; [reflexivity|].
  now rewrite Ascii.eqb_refl.
Qed.

Lemma declared_identity_line (i : Z) :
  declared_identity (identity_line i) = Some i.
Proof.
  unfold declared_identity, identity_line. rewrite strip_prefix_app.
  unfold Py.str_of_int. rewrite NilZero.isi.
  - simpl. now rewrite DecimalZ.of_to.
  - destruct i; simpl; try discriminate.
    intros [= Hp]. now apply DecimalPos.Unsigned.to_uint_nonnil in Hp.
  - destruct i; simpl; try discriminate.
    intros [= Hp]. now apply DecimalPos.Unsigned.to_uint_nonnil in Hp.
Qed.

Lemma peer_mount_lines (b : PeerBlock) :
  absolute_line (peer_state b) = true ->
  absolute_line (peer_contract b) = true ->
  filter (String.prefix "            - /") (peer_lines b)
  = [ ("            - " ++ peer_state b ++ ":/home/user/state")%string;
      ("            - " ++ peer_contract b ++ ":/home/user/contract.ao")%string ].
Proof.
  intros Hs Hc. destruct b as [i state contract backend]. simpl in *.
  destruct (absolute_line_inv _ Hs) as (s' & -> & _).
  destruct (absolute_line_inv _ Hc) as (c' & -> & _).
  unfold peer_lines. cbn. now rewrite !prefix_nil.
Qed.

Lemma coordinator_mount_lines (b : CoordinatorBlock) :
  absolute_line (coordinator_state b) = true ->
  absolute_line (coordinator_contract b) = true ->
  filter (String.prefix "            - /") (coordinator_lines b)
  = [ ("            - " ++ coordinator_state b ++ ":/home/user/state")%string;
      ("            - " ++ coordinator_contract b
         ++ ":/home/user/contract.ao")%string ].
Proof.
  intros Hs Hc. destruct b as [state contract context dockerfile backend].
  simpl in *.
  destruct (absolute_line_inv _ Hs) as (s' & -> & _).
  destruct (absolute_line_inv _ Hc) as (c' & -> & _).
  unfold coordinator_lines. cbn. now rewrite !prefix_nil.
Qed.

Lemma peer_backend_lines (b : PeerBlock) :
  absolute_line (peer_state b) = true ->
  absolute_line (peer_contract b) = true ->
  filter (String.prefix "            - AVM=") (peer_lines b)
  = [ ("            - AVM=" ++ peer_backend b)%string ].
Proof.
  intros Hs Hc. destruct b as [i state contract backend]. simpl in *.
  destruct (absolute_line_inv _ Hs) as (s' & -> & _).
  destruct (absolute_line_inv _ Hc) as (c' & -> & _).
  unfold peer_lines. cbn. now rewrite !prefix_nil.
Qed.

Lemma coordinator_backend_lines (b : CoordinatorBlock) :
  absolute_line (coordinator_state b) = true ->
  absolute_line (coordinator_contract b) = true ->
  filter (String.prefix "            - AVM=") (coordinator_lines b)
  = [ ("            - AVM=" ++ coordinator_backend b)%string ].
Proof.
  intros Hs Hc. destruct b as [state contract context dockerfile backend].
  simpl in *.
  destruct (absolute_line_inv _ Hs) as (s' & -> & _).
  destruct (absolute_line_inv _ Hc) as (c' & -> & _).
  unfold coordinator_lines. cbn. now rewrite !prefix_nil.
Qed.

Lemma flat_map_map {A B C} (g : A -> B) (h : B -> list C) (l : list A) :
  flat_map h (map g l) = flat_map (fun a => h (g a)) l.
Proof.
  induction l as [|a l IH]; cbn [map flat_map]; [reflexivity|now rewrite IH].
Qed.

Lemma flat_map_singleton {A B} (f : A -> B) (l : list A) :
  flat_map (fun a => [f a]) l = map f l.
Proof.
  induction l as [|a l IH]; cbn [map flat_map app]; [reflexivity|now rewrite IH].
Qed.

Section ComposeBlocks.

Variable abspath : string -> string.
Variable ROOT_DIR : string.
Variable VALIDATOR_STATES : string.
Variable states_path : Z -> string.

Variable contract_name : string.
Variable n : Z.
Variable avm : string.

Let document := generate abspath ROOT_DIR states_path contract_name n avm.

Hypothesis contract_ok : absolute_line (abspath contract_name) = true.
Hypothesis context_ok :
  no_newline (abspath (os_path_join ROOT_DIR "packages")) = true.
Hypothesis avm_ok : no_newline avm = true.
Hypothesis states_ok :
  forallb (fun i => absolute_line (states_path i)) (0 :: Py.range 1 n) = true.

Lemma state_ok (i : Z) :
  In i (0 :: Py.range 1 n) -> absolute_line (states_path i) = true.
Proof.
  intros Hi. rewrite forallb_forall in states_ok. now apply states_ok.
Qed.

Lemma absolute_no_newline (p : string) :
  absolute_line p = true -> no_newline p = true.
Proof. unfold absolute_line. intros H. now apply andb_true_iff in H. Qed.

Lemma peers_ok :
  Forall (fun b => absolute_line (peer_state b) = true
                   /\ absolute_line (peer_contract b) = true
                   /\ no_newline (peer_backend b) = true) (peers document).
Proof.
  unfold document, generate. simpl. apply Forall_forall. intros b Hb.
  apply in_map_iff in Hb. destruct Hb as (i & <- & Hi). simpl.
  split; [apply state_ok; now right|]. now split.
Qed.

(** The lines of the rendered document are the lines of the coordinator
    block followed by the lines of each peer block. *)
Lemma document_lines :
  splitlines (render document)
  = coordinator_lines (coordinator document)
    ++ flat_map peer_lines (peers document).
Proof.
  unfold splitlines, render. rewrite coordinator_block_lines.
  - f_equal. apply peers_lines. eapply Forall_impl; [|exact peers_ok].
    simpl. intros b (Hs & Hc & Ha).
    repeat split; auto using absolute_no_newline.
  - simpl. apply absolute_no_newline, state_ok. now left.
  - simpl. now apply absolute_no_newline.
  - exact context_ok.
  - reflexivity.
  - exact avm_ok.
Qed.

Lemma document_filter (prefix : string) (h0 : list string)
    (h : PeerBlock -> list string) :
  filter (String.prefix prefix) (coordinator_lines (coordinator document)) = h0 ->
  Forall (fun b => filter (String.prefix prefix) (peer_lines b) = h b)
         (peers document) ->
  filter (String.prefix prefix) (splitlines (render document))
  = h0 ++ flat_map h (peers document).
Proof.
  intros H0 Hp. rewrite document_lines, filter_app, H0. f_equal.
  induction Hp as [|b l Hb _ IH]; cbn [flat_map]; [reflexivity|].
  now rewrite filter_app, Hb, IH.
Qed.

(** C1, amended.  For every node count of at least 1, when the contract
    path and the state paths are absolute and neither they, the build
    context nor the backend selector hold a newline, the compose file
    that [deploy] leaves on disk consists, line by line, of one
    coordinator block followed by [n - 1] peer blocks.  Its service
    lines are the coordinator's and then those of the peers 1, ...,
    [n - 1]; the identities that its [ID] lines declare, read as decimal
    numerals, are 0 for the coordinator and then 1, ..., [n - 1] in
    ascending order; every block mounts its own state path and the same
    contract path, and selects the same backend. *)
Theorem C1_topology_lines
    (sudo_flag build_flag up_flag : bool) (w : World) :
  1 <= n ->
  exists text : string,
    compose_file
      (snd (deploy abspath ROOT_DIR VALIDATOR_STATES states_path
              contract_name n sudo_flag build_flag up_flag avm w))
    = Some text
    /\ splitlines text
       = coordinator_lines
           (mkCoordinator (states_path 0) (abspath contract_name)
              (abspath (os_path_join ROOT_DIR "packages"))
              "arb-validator.Dockerfile" avm)
         ++ flat_map
              (fun i => peer_lines
                          (mkPeer i (states_path i) (abspath contract_name) avm))
              (Py.range 1 n)
    /\ service_lines text
       = "    arb-validator-coordinator:"%string
           :: map peer_service_line (Py.range 1 n)
    /\ Z.of_nat (length (service_lines text)) = n
    /\ map declared_identity (identity_lines text)
       = map Some (0 :: Py.range 1 n)
    /\ Py.range 1 n = map Z.of_nat (seq 1 (Z.to_nat (n - 1)))
    /\ StronglySorted Z.lt (Py.range 1 n)
    /\ mount_lines text
       = flat_map
           (fun i =>
              [ ("            - " ++ states_path i ++ ":/home/user/state")%string;
                ("            - " ++ abspath contract_name
                   ++ ":/home/user/contract.ao")%string ])
           (0 :: Py.range 1 n)
    /\ backend_lines text
       = map (fun _ => ("            - AVM=" ++ avm)%string) (0 :: Py.range 1 n).
Proof.
  intros Hn.
  destruct (deploy_spec abspath ROOT_DIR VALIDATOR_STATES states_path
              contract_name n avm sudo_flag build_flag up_flag w)
    as (o & w' & evs & R & _ & F & _).
  rewrite R. simpl snd. rewrite F. fold document.
  exists (render document). split; [reflexivity|].
  assert (Hpeers : peers document
                   = map (fun i => mkPeer i (states_path i)
                                     (abspath contract_name) avm)
                         (Py.range 1 n)) by reflexivity.
  assert (Hs0 : absolute_line (states_path 0) = true)
    by (apply state_ok; now left).
  split.
  { rewrite document_lines, Hpeers. f_equal. apply flat_map_map. }
  assert (Hsv : service_lines (render document)
                = "    arb-validator-coordinator:"%string
                    :: map peer_service_line (Py.range 1 n)).
  { unfold service_lines.
    rewrite (document_filter _ ["    arb-validator-coordinator:"%string]
               (fun b => [peer_service_line (peer_identity b)])).
    - rewrite Hpeers, flat_map_map. cbn [peer_identity].
      rewrite flat_map_singleton. reflexivity.
    - apply coordinator_service_lines.
    - apply Forall_forall. intros b _. apply peer_service_lines. }
  split; [exact Hsv|].
  split.
  { rewrite Hsv. cbn [length]. rewrite length_map, range_length. lia. }
  split.
  { unfold identity_lines.
    rewrite (document_filter _ [identity_line 0]
               (fun b => [identity_line (peer_identity b)])).
    - rewrite Hpeers, flat_map_map. cbn [peer_identity].
      rewrite flat_map_singleton. cbn [app map].
      rewrite declared_identity_line, map_map.
      rewrite (map_ext _ Some declared_identity_line). reflexivity.
    - apply coordinator_identity_lines; assumption.
    - eapply Forall_impl; [|exact peers_ok]. cbv beta.
      intros b (Hs & Hc & _). now apply peer_identity_lines. }
  split; [apply range_from_one|].
  split; [apply range_sorted|].
  split.
  { unfold mount_lines.
    rewrite (document_filter _
               [ ("            - " ++ states_path 0
                    ++ ":/home/user/state")%string;
                 ("            - " ++ abspath contract_name
                    ++ ":/home/user/contract.ao")%string ]
               (fun b =>
                  [ ("            - " ++ peer_state b
                       ++ ":/home/user/state")%string;
                    ("            - " ++ peer_contract b
                       ++ ":/home/user/contract.ao")%string ])).
    - rewrite Hpeers, flat_map_map. reflexivity.
    - apply coordinator_mount_lines; assumption.
    - eapply Forall_impl; [|exact peers_ok]. cbv beta.
      intros b (Hs & Hc & _). now apply peer_mount_lines. }
  unfold backend_lines.
  rewrite (document_filter _ [("            - AVM=" ++ avm)%string]
             (fun b => [("            - AVM=" ++ peer_backend b)%string])).
  - rewrite Hpeers, flat_map_map. cbn [peer_backend].
    rewrite flat_map_singleton. reflexivity.
  - apply coordinator_backend_lines; assumption.
  - eapply Forall_impl; [|exact peers_ok]. cbv beta.
    intros b (Hs & Hc & _). now apply peer_backend_lines.
Qed.

End ComposeBlocks.

(** * A node count of zero or less *)

Section NonPositiveCount.

Variable abspath : string -> string.
Variable ROOT_DIR : string.
Variable VALIDATOR_STATES : string.
Variable states_path : Z -> string.

Variable contract_name : string.
Variable avm : string.
Variable sudo_flag build_flag up_flag : bool.



Let document (n : Z) : string :=
  render (generate abspath ROOT_DIR states_path contract_name n avm).




End NonPositiveCount.

(** * The claims at concrete inputs *)

(** C1, as stated, fails: a contract name that holds newlines puts lines
    of its own into every block.  With two nodes the compose file has
    four service lines and four identity lines. *)
Lemma C1_newline_contract_fakes_blocks :
  let run := deploy0 newline_contract 2 false false false "cpp" in
  option_map service_lines (compose_file (snd (run cached_world)))
  = Some [ "    arb-validator-coordinator:"; "    arb-validator9:";
           "    arb-validator1:"; "    arb-validator9:" ]%string
  /\ option_map identity_lines (compose_file (snd (run cached_world)))
     = Some [ "            - ID=9"; "            - ID=0";
              "            - ID=9"; "            - ID=1" ]%string.
Proof. vm_compute. split; reflexivity. Qed.

Lemma C1_topology_lines_witness :
  absolute_line (abspath0 "c.ao") = true
  /\ no_newline (abspath0 (os_path_join "/repo" "packages")) = true
  /\ no_newline "go" = true
  /\ forallb (fun i => absolute_line (states_path0 i)) (0 :: Py.range 1 3)
     = true
  /\ 1 <= 3
  /\ exists text : string,
       compose_file (snd (deploy0 "c.ao" 3 true false true "go" live_world))
       = Some text
       /\ map declared_identity (identity_lines text) = [Some 0; Some 1; Some 2].
Proof.
  split; [vm_compute; reflexivity|]. split; [vm_compute; reflexivity|].
  split; [vm_compute; reflexivity|]. split; [vm_compute; reflexivity|].
  split; [lia|].
  destruct (C1_topology_lines abspath0 "/repo" "validator-states" states_path0
              "c.ao" 3 "go")
    with (sudo_flag := true) (build_flag := false) (up_flag := true)
         (w := live_world)
    as (text & Hf & _ & _ & _ & Hid & _);
    try (vm_compute; reflexivity); [lia|].
  exists text. split; [exact Hf|exact Hid].
Defined.




(** C7, as stated, fails: with no image and a first build that fails,
    two bootstraps in a row run two builds. *)
Lemma C7_two_builds_when_first_fails :
  let once := bootstrap_build_cache false "arb-avm-cpp" in
  image_exists "arb-avm-cpp" live_world = false
  /\ build_invocations (events_of (once ;;; once) live_world) = 2%nat
  /\ existsb is_failed_build (events_of once live_world) = true.
Proof. vm_compute. repeat split. Qed.

Lemma C7_bootstrap_build_counts_witness :
  image_exists "arb-validator" cached_world = true
  /\ build_invocations
       (events_of (bootstrap_build_cache false "arb-validator") cached_world)
     = 0%nat.
Proof.
  split; [reflexivity|].
  apply (proj1 (C7_bootstrap_build_counts false "arb-validator" cached_world)).
  reflexivity.
Defined.



Lemma teardown_after_deploy_witness :
  written (events_of (deploy0 "c.ao" 2 false true false "cpp") cached_world)
  <> []
  /\ existsb is_compose_down
       (events_of (deploy0 "c.ao" 3 true false true "go")
          (snd (deploy0 "c.ao" 2 false true false "cpp" cached_world)))
     = true.
Proof.
  split; [vm_compute; discriminate|].
  apply (teardown_after_deploy abspath0 "/repo" "validator-states" states_path0
           "c.ao" "c.ao" 2 3 false true false true false true false
           "cpp" "go" cached_world).
  vm_compute; discriminate.
Defined.
